(** * Chart configuration to query plan: [useAnalysisChart.ts]

    A shallow embedding of the chart compiler of
    [frontend/src/analysis/useAnalysisChart.ts]: the four [fetch*ChartData]
    validators, the four [prepare*Query] builders, [resetQuery] and the
    dispatcher [refreshChart], followed by the properties the
    specification states about them.

    The reactive container, the debounced watchers and the local storage
    of the serialized chart are not part of the compiler and are left out. *)

From Stdlib Require Import Ascii String List Bool Arith PrimFloat Lia.
Import ListNotations.
Open Scope string_scope.
Open Scope list_scope.

(** ** JavaScript values and coercions *)

Module JS.

(** The two exceptions the compiler can end with: [new Error(message)],
    thrown by the validators, and the engine's [TypeError] for a property
    read on [undefined]. *)
Inductive Exception : Type :=
| Error (message : string)
| TypeError (message : string).

(** A field holding a number or a string, or left out of the object. *)
Inductive Value : Type :=
| Undefined
| Num (n : float)
| Str (s : string).

(** [ToBoolean] on a string-valued property: [undefined] and the empty
    string are falsy. *)
Definition truthy (s : option string) : bool :=
  match s with
  | None => false
  | Some s => negb (s =? "")
  end.

(** [ToBoolean] on a number: [+0], [-0] and [NaN] are falsy. *)
Definition truthy_number (n : float) : bool :=
  negb (PrimFloat.eqb n 0%float) && negb (PrimFloat.is_nan n).

Definition truthy_value (v : Value) : bool :=
  match v with
  | Undefined => false
  | Num n => truthy_number n
  | Str s => negb (s =? "")
  end.

(** [a === b] on two string-valued properties. *)
Definition strict_eq (a b : option string) : bool :=
  match a, b with
  | None, None => true
  | Some x, Some y => x =? y
  | _, _ => false
  end.

(** [xs.filter(Boolean)] on an array of objects-or-[undefined]. *)
Fixpoint filter_Boolean {A : Type} (xs : list (option A)) : list A :=
  match xs with
  | [] => []
  | None :: rest => filter_Boolean rest
  | Some x :: rest => x :: filter_Boolean rest
  end.

(** [xs.includes(x)] on an array of strings. *)
Fixpoint includes (xs : list string) (x : string) : bool :=
  match xs with
  | [] => false
  | y :: rest => (y =? x) || includes rest x
  end.

(** [xs.length] as a condition. *)
Definition has_length {A : Type} (xs : list A) : bool :=
  negb (length xs =? 0)%nat.

End JS.

(** ** Columns, operations and the data model *)

(** Modelled from the spec: the ambient type [Dimension] is declared outside
    this file; section 3 gives it a column name and a display label. *)
Record Dimension : Type := {
  dimension_name : string;
  label : string
}.

(** Modelled from the spec: the ambient type [Measure] is declared outside
    this file; section 3 gives it a column name and an aggregation kind.
    The compiler reads [column_name] only. *)
Record Measure : Type := {
  column_name : string;
  aggregation : string
}.

(** Modelled from the spec: the ambient type [FilterArgs], a filter
    predicate; the compiler passes it on without looking inside. *)
Record FilterArgs : Type := {
  filter_column : string;
  filter_operator : string;
  filter_value : string
}.

(** Modelled from the spec: the helpers [column], [expression] and [mutate]
    of [query_utils] are not part of these sources; each builds the
    argument object of the operation it is passed to (section 4.2: the
    order-by on a column name, the derive of a named field of a given type
    from an expression). *)
Inductive Column : Type := column_ref (name : string).
Definition column : string -> Column := column_ref.
Inductive Expression : Type := expression (text : string).
Record MutateArgs : Type := mutate {
  new_name : string;
  data_type : string;
  mutation : Expression
}.

(** One entry of a query's operation list.  [other] stands for the
    operation kinds that only the upstream model query can hold. *)
Inductive Operation : Type :=
| filter_group (filters : list FilterArgs)
| summarize (measures : list Measure) (dimensions : list Dimension)
| pivot_wider (rows columns : list Dimension) (values : list Measure)
| order_by (col : Column) (direction : string)
| mutate_op (args : MutateArgs)
| other (kind : string).

Module ModelQuery.
Record t : Type := {
  dataSource : string;
  operations : list Operation
}.
End ModelQuery.

(** Modelled from the spec: [useDataModel] is not part of these sources.
    Sections 4.1 and 6: the catalog is looked up by column name and answers
    with the column or with absence; [queries] is what the compiler reads
    as [model.queries]. *)
Record DataModel : Type := {
  dimension_named : string -> option Dimension;
  measure_named : string -> option Measure;
  queries : list ModelQuery.t
}.

(** Modelled from the spec: [model.getDimension(name)].  The call sites
    pass a property that may be [undefined]; no column has that name. *)
Definition getDimension (model : DataModel) (name : option string)
  : option Dimension :=
  match name with
  | None => None
  | Some n => dimension_named model n
  end.

(** Modelled from the spec: [model.getMeasure(name)], as [getDimension]. *)
Definition getMeasure (model : DataModel) (name : option string)
  : option Measure :=
  match name with
  | None => None
  | Some n => measure_named model n
  end.

(** ** The chart's query *)

Module Query.

(** [executed] records every plan handed over by [execute], oldest
    first; execution itself is asynchronous and lives in the engine. *)
Record t : Type := {
  autoExecute : bool;
  dataSource : string;
  operations : list Operation;
  executed : list (string * list Operation)
}.

Definition set_autoExecute (b : bool) (q : t) : t :=
  {| autoExecute := b; dataSource := dataSource q;
     operations := operations q; executed := executed q |}.

(** Modelled from the spec: [useQuery] is not part of these sources.
    Section 6 lists its methods; each [add*] appends one operation to the
    ordered operation list. *)
Definition setDataSource (ds : string) (q : t) : t :=
  {| autoExecute := autoExecute q; dataSource := ds;
     operations := operations q; executed := executed q |}.

Definition setOperations (ops : list Operation) (q : t) : t :=
  {| autoExecute := autoExecute q; dataSource := dataSource q;
     operations := ops; executed := executed q |}.

Definition addOperation (op : Operation) (q : t) : t :=
  setOperations (operations q ++ [op]) q.

Definition addFilter (fs : list FilterArgs) : t -> t :=
  addOperation (filter_group fs).

Definition addSummarize (measures : list Measure) (dimensions : list Dimension)
  : t -> t :=
  addOperation (summarize measures dimensions).

Definition addPivotWider (rows columns : list Dimension) (values : list Measure)
  : t -> t :=
  addOperation (pivot_wider rows columns values).

Definition addOrderBy (col : Column) (direction : string) : t -> t :=
  addOperation (order_by col direction).

Definition addMutate (args : MutateArgs) : t -> t :=
  addOperation (mutate_op args).

Definition execute (q : t) : t :=
  {| autoExecute := autoExecute q; dataSource := dataSource q;
     operations := operations q;
     executed := executed q ++ [(dataSource q, operations q)] |}.

End Query.

(** ** Chart configuration and chart state *)

(** The configuration object.  [ChartConfig] is a union of the four
    per-type shapes and the source narrows it by type assertion only
    ([chart.config as AxisChartConfig]), which does nothing at run time:
    one object, whose properties a given chart type reads or not.  A
    property left out reads as [undefined] ([None]); the initial
    configuration is the empty object. *)
Record ChartConfig : Type := {
  (* AxisChartConfig *)
  x_axis : option string;
  split_by : option string;
  y_axis : option (list string);
  (* MetricChartConfig *)
  metric_column : option string;
  target_value : JS.Value;
  target_column : option string;
  date_column : option string;
  (* DountChartConfig *)
  label_column : option string;
  value_column : option string;
  (* TableChartConfig *)
  rows : option (list string);
  columns : option (list string);
  values : option (list string)
}.

Definition empty_config : ChartConfig :=
  {| x_axis := None; split_by := None; y_axis := None;
     metric_column := None; target_value := JS.Undefined;
     target_column := None; date_column := None;
     label_column := None; value_column := None;
     rows := None; columns := None; values := None |}.

Definition ChartType : Type := string.

(** The reactive [chart] object, without its methods. *)
Record Chart : Type := {
  name : string;
  type : ChartType;
  config : ChartConfig;
  query : Query.t;
  filters : list FilterArgs
}.

Definition with_query (f : Query.t -> Query.t) (chart : Chart) : Chart :=
  {| name := name chart; type := type chart; config := config chart;
     query := f (query chart); filters := filters chart |}.

(** ** Statements: state and exceptions *)

(** How a statement ends: normally with a value, or abruptly with a thrown
    exception.  Either way the chart is left as the statement made it. *)
Inductive Completion (A : Type) : Type :=
| Normal (a : A)
| Throw (e : JS.Exception).
Arguments Normal {A} a.
Arguments Throw {A} e.

Definition M (A : Type) : Type := Chart -> Completion A * Chart.

Definition ret {A : Type} (a : A) : M A := fun chart => (Normal a, chart).

Definition bind {A B : Type} (c : M A) (k : A -> M B) : M B :=
  fun chart =>
    match c chart with
    | (Normal a, chart') => k a chart'
    | (Throw e, chart') => (Throw e, chart')
    end.

Definition throw {A : Type} (e : JS.Exception) : M A :=
  fun chart => (Throw e, chart).

Definition get : M Chart := fun chart => (Normal chart, chart).

(** [chart.query.method(...)] *)
Definition chart_query (f : Query.t -> Query.t) : M unit :=
  fun chart => (Normal tt, with_query f chart).

(** [if (cond) { body }] *)
Definition when (cond : bool) (body : M unit) : M unit :=
  if cond then body else ret tt.

(** [object.property] where [object] may be [undefined]. *)
Definition property {A B : Type} (object : option A) (get_property : A -> B)
  : M B :=
  match object with
  | Some o => ret (get_property o)
  | None => throw (JS.TypeError "Cannot read properties of undefined")
  end.

Declare Scope js_scope.
Delimit Scope js_scope with js.
Notation "x <- c ;; k" := (bind c (fun x => k))
  (at level 61, c at next level, right associativity) : js_scope.
Notation "c ;; k" := (bind c (fun _ => k))
  (at level 61, right associativity) : js_scope.
Open Scope js_scope.

(** ** The compiler *)

(** The third argument of [prepareMetricQuery], of type
    [Measure | Number | undefined]. *)
Inductive Target : Type :=
| target_number (n : float)
| target_measure (m : Measure)
| target_undefined.

(** [typeof target === 'number' && target > 0]; the other test of the
    chain, [typeof target === 'object'], is the case [target_measure]. *)
Definition is_positive_number (target : Target) : bool :=
  match target with
  | target_number n => PrimFloat.ltb 0%float n
  | _ => false
  end.

Section useAnalysisChart.

(** [useAnalysisChart(name, model)] closes over the data model. *)
Variable model : DataModel.

(** The language's conversions between strings and numbers, and two values
    imported from modules outside this file: the measure [count()] of
    [query_utils] and the list [AXIS_CHARTS] of [chart_utils]. *)
Variable StringToNumber : string -> float.
Variable NumberToString : float -> string.
Variable count : Measure.
Variable AXIS_CHARTS : list ChartType.

(** [Number(value)] *)
Definition Number (v : JS.Value) : float :=
  match v with
  | JS.Undefined => PrimFloat.nan
  | JS.Num n => n
  | JS.Str s => StringToNumber s
  end.

(** [`${target}`]: the string a template literal makes of [target]. *)
Definition ToString (target : Target) : string :=
  match target with
  | target_number n => NumberToString n
  | target_measure _ => "[object Object]"
  | target_undefined => "undefined"
  end.

Definition resetQuery : M unit :=
  let modelQuery := nth_error (queries model) 0 in
  chart_query (Query.set_autoExecute false) ;;
  ds <- property modelQuery ModelQuery.dataSource ;;
  chart_query (Query.setDataSource ds) ;;
  ops <- property modelQuery ModelQuery.operations ;;
  chart_query (Query.setOperations ops) ;;
  chart <- get ;;
  when (JS.has_length (filters chart))
       (chart_query (Query.addFilter (filters chart))).

Definition prepareAxisChartQuery (row : Dimension) (column : option Dimension)
    (values : option (list Measure)) : M unit :=
  let values :=
    match values with
    | Some vs => if JS.has_length vs then vs else [count]
    | None => [count]
    end in
  resetQuery ;;
  match column with
  | Some column => chart_query (Query.addPivotWider [row] [column] values)
  | None => chart_query (Query.addSummarize values [row])
  end.

Definition fetchAxisChartData (config : ChartConfig) : M unit :=
  when (negb (JS.truthy (x_axis config)))
       (throw (JS.Error "X-axis is required")) ;;
  when (JS.strict_eq (x_axis config) (split_by config))
       (throw (JS.Error "X-axis and split-by cannot be the same")) ;;
  match getDimension model (x_axis config) with
  | None => throw (JS.Error "X-axis column not found")
  | Some row =>
      let column := getDimension model (split_by config) in
      let values :=
        option_map
          (fun ys => JS.filter_Boolean (map (fun y => getMeasure model (Some y)) ys))
          (y_axis config) in
      prepareAxisChartQuery row column values ;;
      chart_query Query.execute
  end.

Definition prepareMetricQuery (metric : Measure) (target : Target)
    (date : option Dimension) : M unit :=
  resetQuery ;;
  if is_positive_number target then
    chart_query (Query.addSummarize [metric] []) ;;
    chart_query
      (Query.addMutate
         (mutate "target" "Decimal"
            (expression ("literal(" ++ ToString target ++ ")"))))
  else
    match target with
    | target_measure target =>
        chart_query (Query.addSummarize [metric; target] [])
    | _ =>
        match date with
        | Some date => chart_query (Query.addSummarize [metric] [date])
        | None => chart_query (Query.addSummarize [metric] [])
        end
    end.

Definition fetchMetricChartData (config : ChartConfig) : M unit :=
  when (JS.truthy_value (target_value config) && JS.truthy (target_column config))
       (throw (JS.Error "Target value and target column cannot be used together")) ;;
  when (JS.strict_eq (metric_column config) (target_column config))
       (throw (JS.Error "Metric and target cannot be the same")) ;;
  when (JS.truthy (target_column config) && JS.truthy (date_column config))
       (throw (JS.Error "Target and date cannot be used together")) ;;
  match getMeasure model (metric_column config) with
  | None => throw (JS.Error "Metric column not found")
  | Some metric =>
      let date := getDimension model (date_column config) in
      let target :=
        if JS.truthy_value (target_value config)
        then target_number (Number (target_value config))
        else match getMeasure model (target_column config) with
             | Some m => target_measure m
             | None => target_undefined
             end in
      prepareMetricQuery metric target date ;;
      chart_query Query.execute
  end.

Definition prepareDonutQuery (label : Dimension) (value : Measure) : M unit :=
  resetQuery ;;
  chart_query (Query.addSummarize [value] [label]) ;;
  chart_query (Query.addOrderBy (column (column_name value)) "desc").

Definition fetchDonutChartData (config : ChartConfig) : M unit :=
  when (negb (JS.truthy (label_column config)))
       (throw (JS.Error "Label is required")) ;;
  when (negb (JS.truthy (value_column config)))
       (throw (JS.Error "Value is required")) ;;
  let label := getDimension model (label_column config) in
  let value := getMeasure model (value_column config) in
  match label with
  | None => throw (JS.Error "Label column not found")
  | Some label =>
      match value with
      | None => throw (JS.Error "Value column not found")
      | Some value =>
          prepareDonutQuery label value ;;
          chart_query Query.execute
      end
  end.

Definition prepareTableQuery (rows columns : list Dimension)
    (values : list Measure) : M unit :=
  resetQuery ;;
  when (negb (JS.has_length columns))
       (chart_query (Query.addSummarize values rows)) ;;
  when (JS.has_length columns)
       (chart_query (Query.addPivotWider rows columns values)).

Definition fetchTableChartData (config : ChartConfig) : M unit :=
  rows_length <- property (rows config) (@length string) ;;
  when (rows_length =? 0)%nat
       (throw (JS.Error "Rows are required")) ;;
  rows <- property (rows config)
            (fun rs => JS.filter_Boolean (map (fun r => getDimension model (Some r)) rs)) ;;
  columns <- property (columns config)
            (fun cs => JS.filter_Boolean (map (fun c => getDimension model (Some c)) cs)) ;;
  values <- property (values config)
            (fun vs => JS.filter_Boolean (map (fun v => getMeasure model (Some v)) vs)) ;;
  prepareTableQuery rows columns values ;;
  chart_query Query.execute.

(** [refreshChart] is declared [async]: an exception thrown in its body
    rejects the promise it returns, and the statements after the throw do
    not run. *)
Definition refreshChart : M unit :=
  chart <- get ;;
  when (JS.includes AXIS_CHARTS (type chart))
       (chart <- get ;; fetchAxisChartData (config chart)) ;;
  chart <- get ;;
  when (type chart =? "Metric")
       (chart <- get ;; fetchMetricChartData (config chart)) ;;
  chart <- get ;;
  when (type chart =? "Donut")
       (chart <- get ;; fetchDonutChartData (config chart)) ;;
  chart <- get ;;
  when (type chart =? "Table")
       (chart <- get ;; fetchTableChartData (config chart)).

End useAnalysisChart.

(** ** Creating, serializing and filtering a chart *)

Module Serialized.
(** What [chart.serialize()] returns. *)
Record t : Type := {
  name : string;
  type : ChartType;
  config : ChartConfig
}.
End Serialized.

Definition serialize (chart : Chart) : Serialized.t :=
  {| Serialized.name := name chart;
     Serialized.type := type chart;
     Serialized.config := config chart |}.

(** [chart.setFilters(filters)] *)
Definition setFilters (fs : list FilterArgs) : M unit :=
  fun chart =>
    (Normal tt,
     {| name := name chart; type := type chart; config := config chart;
        query := query chart; filters := fs |}).

(** [Object.assign(chart, stored)] for a stored serialized chart. *)
Definition assign (chart : Chart) (stored : Serialized.t) : Chart :=
  {| name := Serialized.name stored; type := Serialized.type stored;
     config := Serialized.config stored;
     query := query chart; filters := filters chart |}.

(** The chart [useAnalysisChart(name, model)] returns.  [useQuery] and
    [storeLocally] are imported from modules outside this file: the query
    made for the name is the parameter [useQuery], and [storedChart] is
    the value the store holds for the name, [None] standing for the
    default value [{}], whose [name] is [undefined]. *)
Definition useAnalysisChart (useQuery : string -> Query.t) (name : string)
    (storedChart : option Serialized.t) : Chart :=
  let chart :=
    {| name := name; type := "Bar"; config := empty_config;
       query := useQuery name; filters := [] |} in
  match storedChart with
  | Some stored =>
      if Serialized.name stored =? name then assign chart stored else chart
  | None => chart
  end.

(** ** Vocabulary of the specification *)

(** The three kinds of configuration error the specification names.  The
    source throws plain [Error] objects that differ by message only. *)
Inductive ConfigError : Type :=
| MissingField
| ConflictingFields
| UnknownColumn.

(** The kind the specification (sections 4.2 and 7) gives to the check
    behind each message thrown in the source. *)
Definition config_error_messages : list (string * ConfigError) :=
  [ ("X-axis is required", MissingField);
    ("X-axis and split-by cannot be the same", ConflictingFields);
    ("X-axis column not found", UnknownColumn);
    ("Target value and target column cannot be used together", ConflictingFields);
    ("Metric and target cannot be the same", ConflictingFields);
    ("Target and date cannot be used together", ConflictingFields);
    ("Metric column not found", UnknownColumn);
    ("Label is required", MissingField);
    ("Value is required", MissingField);
    ("Label column not found", UnknownColumn);
    ("Value column not found", UnknownColumn);
    ("Rows are required", MissingField) ].

Fixpoint assoc {A : Type} (key : string) (table : list (string * A))
  : option A :=
  match table with
  | [] => None
  | (k, v) :: rest => if k =? key then Some v else assoc key rest
  end.

Definition config_error (e : JS.Exception) : option ConfigError :=
  match e with
  | JS.Error message => assoc message config_error_messages
  | JS.TypeError _ => None
  end.

(** The base plan of a compile: the upstream operations of the model query,
    followed by the chart's filters when there are any. *)
Definition base_operations (modelQuery : ModelQuery.t)
    (filters : list FilterArgs) : list Operation :=
  ModelQuery.operations modelQuery
  ++ (if JS.has_length filters then [filter_group filters] else []).

(** The chart as a finished compile leaves it: flag off, data source and
    base plan taken from the model query, [emitted] appended, and the whole
    plan handed over once. *)
Definition compiled (modelQuery : ModelQuery.t) (emitted : list Operation)
    (chart : Chart) : Chart :=
  let plan := base_operations modelQuery (filters chart) ++ emitted in
  with_query
    (fun q =>
       {| Query.autoExecute := false;
          Query.dataSource := ModelQuery.dataSource modelQuery;
          Query.operations := plan;
          Query.executed :=
            Query.executed q ++ [(ModelQuery.dataSource modelQuery, plan)] |})
    chart.

Definition is_summarize (op : Operation) : bool :=
  match op with summarize _ _ => true | _ => false end.

Definition is_pivot_wider (op : Operation) : bool :=
  match op with pivot_wider _ _ _ => true | _ => false end.

Definition is_filter (op : Operation) : bool :=
  match op with filter_group _ => true | _ => false end.

(** A derive operation that creates the field ["target"]. *)
Definition is_target_mutate (op : Operation) : bool :=
  match op with
  | mutate_op args => new_name args =? "target"
  | _ => false
  end.

(** Best-effort resolution of a list of names: unresolved names are
    dropped ([names.map(...).filter(Boolean)] in the source). *)
Definition resolved_dimensions (model : DataModel) (names : list string)
  : list Dimension :=
  JS.filter_Boolean (map (fun n => getDimension model (Some n)) names).

Definition resolved_measures (model : DataModel) (names : list string)
  : list Measure :=
  JS.filter_Boolean (map (fun n => getMeasure model (Some n)) names).

(** The measures of an axis chart: the resolved [y_axis], or the row count
    when nothing is left of it. *)
Definition axis_measures (model : DataModel) (count : Measure)
    (config : ChartConfig) : list Measure :=
  match option_map (resolved_measures model) (y_axis config) with
  | Some (v :: vs) => v :: vs
  | _ => [count]
  end.

(** ** A small data model for the examples *)

Module Sales.

Definition dimension (n : string) : Dimension :=
  {| dimension_name := n; label := n |}.

Definition sum_of (n : string) : Measure :=
  {| column_name := n; aggregation := "sum" |}.

Definition count : Measure :=
  {| column_name := "count"; aggregation := "count" |}.

Definition upstream : ModelQuery.t :=
  {| ModelQuery.dataSource := "warehouse";
     ModelQuery.operations := [other "source"; other "join"] |}.

(** Dimensions [region], [quarter], [day]; measures [revenue], [signups],
    [goal]. *)
Definition model : DataModel :=
  {| dimension_named := fun n =>
       if (n =? "region") || (n =? "quarter") || (n =? "day")
       then Some (dimension n) else None;
     measure_named := fun n =>
       if (n =? "revenue") || (n =? "signups") || (n =? "goal")
       then Some (sum_of n) else None;
     queries := [upstream] |}.

Definition AXIS_CHARTS : list ChartType := ["Bar"; "Line"].

Definition digit (c : Ascii.ascii) : option float :=
  match c with
  | "0"%char => Some 0%float | "1"%char => Some 1%float
  | "2"%char => Some 2%float | "3"%char => Some 3%float
  | "4"%char => Some 4%float | "5"%char => Some 5%float
  | "6"%char => Some 6%float | "7"%char => Some 7%float
  | "8"%char => Some 8%float | "9"%char => Some 9%float
  | _ => None
  end.

Fixpoint digits (acc : float) (s : string) : float :=
  match s with
  | EmptyString => acc
  | String c rest =>
      match digit c with
      | Some d => digits (PrimFloat.add (PrimFloat.mul acc 10%float) d) rest
      | None => PrimFloat.nan
      end
  end.

(** String-to-number conversion on unsigned decimal integers, which is all
    the examples use; the empty string converts to zero and anything else
    to [NaN]. *)
Definition StringToNumber (s : string) : float := digits 0%float s.

Fixpoint digits_of (fuel : nat) (n : nat) (acc : string) : string :=
  match fuel with
  | O => acc
  | S fuel =>
      let acc := String (Ascii.ascii_of_nat (48 + n mod 10)) acc in
      if (n / 10 =? 0)%nat then acc else digits_of fuel (n / 10) acc
  end.

(** Number-to-string conversion on the numbers [0 .. 999], which is all
    the examples use. *)
Definition NumberToString (n : float) : string :=
  let fix find (k : nat) (candidates : nat) : string :=
    match candidates with
    | O => "NaN"
    | S candidates =>
        if PrimFloat.eqb n (StringToNumber (digits_of 4 k ""))
        then digits_of 4 k ""
        else find (S k) candidates
    end in
  find 0%nat 1000%nat.

Definition fresh_query : Query.t :=
  {| Query.autoExecute := true; Query.dataSource := "";
     Query.operations := []; Query.executed := [] |}.

Definition chart (type : ChartType) (config : ChartConfig)
    (filters : list FilterArgs) : Chart :=
  {| name := "sales"; type := type; config := config;
     query := fresh_query; filters := filters |}.

Definition this_year : FilterArgs :=
  {| filter_column := "year"; filter_operator := "=";
     filter_value := "2024" |}.

Definition axis_config (split : option string) (ys : option (list string))
  : ChartConfig :=
  {| x_axis := Some "region"; split_by := split; y_axis := ys;
     metric_column := None; target_value := JS.Undefined;
     target_column := None; date_column := None;
     label_column := None; value_column := None;
     rows := None; columns := None; values := None |}.

Definition metric_config (metric : option string) (value : JS.Value)
    (target date : option string) : ChartConfig :=
  {| x_axis := None; split_by := None; y_axis := None;
     metric_column := metric; target_value := value;
     target_column := target; date_column := date;
     label_column := None; value_column := None;
     rows := None; columns := None; values := None |}.

Definition donut_config : ChartConfig :=
  {| x_axis := None; split_by := None; y_axis := None;
     metric_column := None; target_value := JS.Undefined;
     target_column := None; date_column := None;
     label_column := Some "region"; value_column := Some "revenue";
     rows := None; columns := None; values := None |}.

Definition table_config (rs cs vs : list string) : ChartConfig :=
  {| x_axis := None; split_by := None; y_axis := None;
     metric_column := None; target_value := JS.Undefined;
     target_column := None; date_column := None;
     label_column := None; value_column := None;
     rows := Some rs; columns := Some cs; values := Some vs |}.

End Sales.


(** The sales model before any query was added to it. *)
Module Offline.
Definition model : DataModel :=
  {| dimension_named := dimension_named Sales.model;
     measure_named := measure_named Sales.model;
     queries := [] |}.
End Offline.

(** ** Running the statements *)

(** The chart after [resetQuery] has gone through. *)
Definition reset (modelQuery : ModelQuery.t) (chart : Chart) : Chart :=
  with_query
    (fun q =>
       {| Query.autoExecute := false;
          Query.dataSource := ModelQuery.dataSource modelQuery;
          Query.operations := base_operations modelQuery (filters chart);
          Query.executed := Query.executed q |})
    chart.

(** What a builder followed by [chart.query.execute()] comes to, when the
    builder appends [emitted] to the base plan: the compiled chart, or the
    engine's [TypeError] when the data model has no query to start from. *)
Definition build (model : DataModel) (emitted : list Operation)
    (chart : Chart) : Completion unit * Chart :=
  match nth_error (queries model) 0 with
  | Some modelQuery => (Normal tt, compiled modelQuery emitted chart)
  | None =>
      (Throw (JS.TypeError "Cannot read properties of undefined"),
       with_query (Query.set_autoExecute false) chart)
  end.

(** The operations [prepareMetricQuery] appends, branch by branch. *)
Definition metric_operations (NumberToString : float -> string)
    (metric : Measure) (target : Target) (date : option Dimension)
  : list Operation :=
  if is_positive_number target then
    [summarize [metric] [];
     mutate_op
       (mutate "target" "Decimal"
          (expression ("literal(" ++ ToString NumberToString target ++ ")")))]
  else
    match target with
    | target_measure t => [summarize [metric; t] []]
    | _ =>
        match date with
        | Some d => [summarize [metric] [d]]
        | None => [summarize [metric] []]
        end
    end.

(** The target [fetchMetricChartData] passes on. *)
Definition metric_target (model : DataModel) (StringToNumber : string -> float)
    (config : ChartConfig) : Target :=
  if JS.truthy_value (target_value config)
  then target_number (Number StringToNumber (target_value config))
  else match getMeasure model (target_column config) with
       | Some m => target_measure m
       | None => target_undefined
       end.

(** The operations [prepareTableQuery] appends. *)
Definition table_operations (rows columns : list Dimension)
    (values : list Measure) : list Operation :=
  match columns with
  | [] => [summarize values rows]
  | _ :: _ => [pivot_wider rows columns values]
  end.

(** How a compile can end, seen from the chart it started on: rejected by
    a validation with the chart untouched, stopped by the engine with the
    plan and the execution record untouched, or finished with a plan that
    is the base plan and at least one more operation, none of them a
    filter. *)
Inductive outcome (model : DataModel) (chart : Chart)
  : Completion unit * Chart -> Prop :=
| rejected (message : string) (kind : ConfigError) :
    config_error (JS.Error message) = Some kind ->
    outcome model chart (Throw (JS.Error message), chart)
| stopped (message : string) :
    nth_error (queries model) 0 = None ->
    outcome model chart
      (Throw (JS.TypeError message),
       with_query (Query.set_autoExecute false) chart)
| unreadable (message : string) :
    outcome model chart (Throw (JS.TypeError message), chart)
| finished (modelQuery : ModelQuery.t) (emitted : list Operation) :
    nth_error (queries model) 0 = Some modelQuery ->
    emitted <> [] ->
    existsb is_filter emitted = false ->
    outcome model chart (Normal tt, compiled modelQuery emitted chart).

(** One [if (chart.type ...) { fetch...(chart.config) }] of [refreshChart]. *)
Definition dispatch_on (applies : ChartType -> bool)
    (fetch : ChartConfig -> M unit) : M unit :=
  chart <- get ;;
  when (applies (type chart)) (chart <- get ;; fetch (config chart)).

(** The axis family shares no name with the three other chart types, so
    that one chart type selects one compile. *)
Definition one_compile_per_type (AXIS_CHARTS : list ChartType) : Prop :=
  JS.includes AXIS_CHARTS "Metric" = false /\
  JS.includes AXIS_CHARTS "Donut" = false /\
  JS.includes AXIS_CHARTS "Table" = false.

(** The plan of [after] is a base plan made for [chart], followed by
    operations of the chart type. *)
Definition based_on (model : DataModel) (chart after : Chart) : Prop :=
  exists modelQuery emitted,
    nth_error (queries model) 0 = Some modelQuery /\
    Query.dataSource (query after) = ModelQuery.dataSource modelQuery /\
    Query.operations (query after)
    = ModelQuery.operations modelQuery
      ++ match filters chart with
         | [] => []
         | _ :: _ => [filter_group (filters chart)]
         end
      ++ emitted /\
    emitted <> [] /\
    existsb is_filter emitted = false.

Definition same_inputs (chart after : Chart) : Prop :=
  type after = type chart /\ config after = config chart /\
  filters after = filters chart.

(** The chart types for which [refreshChart] runs a compile. *)
Definition selects_compile (AXIS_CHARTS : list ChartType) (t : ChartType)
  : bool :=
  JS.includes AXIS_CHARTS t || (t =? "Metric") || (t =? "Donut")
  || (t =? "Table").

(** [after] is reached from [chart] by compiles that went through. *)
Inductive compiled_from (model : DataModel) (chart : Chart) : Chart -> Prop :=
| not_yet : compiled_from model chart chart
| once_more (before after : Chart) :
    compiled_from model chart before ->
    outcome model before (Normal tt, after) ->
    compiled_from model chart after.

(** A compile either rejects the configuration with one exception and
    leaves the chart alone, or builds on one list of operations; which of
    the two, and with what, is settled by the configuration and the model. *)
Definition settled (model : DataModel) (compile : M unit) : Prop :=
  (exists e, forall chart, compile chart = (Throw e, chart)) \/
  (exists emitted,
      emitted <> [] /\ existsb is_filter emitted = false /\
      forall chart, compile chart = build model emitted chart).

Section Properties.

Variable model : DataModel.
Variable StringToNumber : string -> float.
Variable NumberToString : float -> string.
Variable count : Measure.
Variable AXIS_CHARTS : list ChartType.

Lemma resetQuery_run (chart : Chart) :
  resetQuery model chart =
  match nth_error (queries model) 0 with
  | Some modelQuery => (Normal tt, reset modelQuery chart)
  | None =>
      (Throw (JS.TypeError "Cannot read properties of undefined"),
       with_query (Query.set_autoExecute false) chart)
  end.
Proof.
  unfold resetQuery.
  destruct (nth_error (queries model) 0) as [mq|];
    cbv [bind when ret throw get chart_query property]; [|reflexivity].
  unfold reset, base_operations, with_query; simpl.
  destruct (JS.has_length (filters chart)); simpl.
  - reflexivity.
  - rewrite app_nil_r. reflexivity.
Qed.

(** A builder that resets and then appends its operations one by one,
    followed by [execute]. *)
Lemma reset_append_execute (emitted : list Operation) (chart : Chart) :
  (resetQuery model ;;
   chart_query
     (fun q => Query.setOperations (Query.operations q ++ emitted) q) ;;
   chart_query Query.execute) chart
  = build model emitted chart.
Proof.
  unfold build, bind. rewrite resetQuery_run.
  destruct (nth_error (queries model) 0); reflexivity.
Qed.

Lemma values_or_count (config : ChartConfig) :
  match
    option_map
      (fun ys => JS.filter_Boolean (map (fun y => getMeasure model (Some y)) ys))
      (y_axis config)
  with
  | Some vs => if JS.has_length vs then vs else [count]
  | None => [count]
  end = axis_measures model count config.
Proof.
  unfold axis_measures, resolved_measures.
  destruct (y_axis config) as [ys|]; simpl; [|reflexivity].
  destruct (JS.filter_Boolean _); reflexivity.
Qed.

(** [fetchAxisChartData], check by check. *)
Lemma fetchAxisChartData_run (config : ChartConfig) (chart : Chart) :
  fetchAxisChartData model count config chart =
  if negb (JS.truthy (x_axis config)) then
    (Throw (JS.Error "X-axis is required"), chart)
  else if JS.strict_eq (x_axis config) (split_by config) then
    (Throw (JS.Error "X-axis and split-by cannot be the same"), chart)
  else
    match getDimension model (x_axis config) with
    | None => (Throw (JS.Error "X-axis column not found"), chart)
    | Some row =>
        build model
          [match getDimension model (split_by config) with
           | Some col =>
               pivot_wider [row] [col] (axis_measures model count config)
           | None => summarize (axis_measures model count config) [row]
           end]
          chart
    end.
Proof.
  unfold fetchAxisChartData, prepareAxisChartQuery.
  rewrite values_or_count.
  destruct (negb (JS.truthy (x_axis config))); [reflexivity|].
  destruct (JS.strict_eq (x_axis config) (split_by config)); [reflexivity|].
  destruct (getDimension model (x_axis config)) as [row|]; [|reflexivity].
  rewrite <- reset_append_execute.
  unfold bind, when, ret.
  destruct (resetQuery model chart) as [[[]|e] c]; [|reflexivity].
  destruct (getDimension model (split_by config)); reflexivity.
Qed.

(** [prepareMetricQuery] followed by [execute]. *)
Lemma prepareMetricQuery_run (metric : Measure) (target : Target)
    (date : option Dimension) (chart : Chart) :
  (prepareMetricQuery model NumberToString metric target date ;;
   chart_query Query.execute) chart
  = build model (metric_operations NumberToString metric target date) chart.
Proof.
  unfold prepareMetricQuery, metric_operations, build, bind.
  rewrite resetQuery_run.
  destruct (nth_error (queries model) 0) as [mq|]; [|reflexivity].
  destruct (is_positive_number target).
  - unfold chart_query, compiled, with_query, Query.addSummarize,
      Query.addMutate, Query.addOperation; simpl.
    rewrite <- !app_assoc. reflexivity.
  - destruct target as [n|t|]; try destruct date; reflexivity.
Qed.

(** [fetchMetricChartData], check by check. *)
Lemma fetchMetricChartData_run (config : ChartConfig) (chart : Chart) :
  fetchMetricChartData model StringToNumber NumberToString config chart =
  if JS.truthy_value (target_value config) && JS.truthy (target_column config)
  then
    (Throw (JS.Error "Target value and target column cannot be used together"),
     chart)
  else if JS.strict_eq (metric_column config) (target_column config) then
    (Throw (JS.Error "Metric and target cannot be the same"), chart)
  else if JS.truthy (target_column config) && JS.truthy (date_column config)
  then (Throw (JS.Error "Target and date cannot be used together"), chart)
  else
    match getMeasure model (metric_column config) with
    | None => (Throw (JS.Error "Metric column not found"), chart)
    | Some metric =>
        build model
          (metric_operations NumberToString metric
             (metric_target model StringToNumber config)
             (getDimension model (date_column config)))
          chart
    end.
Proof.
  unfold fetchMetricChartData.
  destruct (JS.truthy_value (target_value config) && JS.truthy (target_column config))
    eqn:Hboth; [reflexivity|].
  destruct (JS.strict_eq (metric_column config) (target_column config));
    [reflexivity|].
  destruct (JS.truthy (target_column config) && JS.truthy (date_column config));
    [reflexivity|].
  destruct (getMeasure model (metric_column config)) as [metric|];
    [|reflexivity].
  cbv [when]. unfold bind at 1 2 3. cbv [ret].
  apply prepareMetricQuery_run.
Qed.

(** [fetchDonutChartData], check by check. *)
Lemma fetchDonutChartData_run (config : ChartConfig) (chart : Chart) :
  fetchDonutChartData model config chart =
  if negb (JS.truthy (label_column config)) then
    (Throw (JS.Error "Label is required"), chart)
  else if negb (JS.truthy (value_column config)) then
    (Throw (JS.Error "Value is required"), chart)
  else
    match getDimension model (label_column config),
          getMeasure model (value_column config) with
    | None, _ => (Throw (JS.Error "Label column not found"), chart)
    | Some _, None => (Throw (JS.Error "Value column not found"), chart)
    | Some label, Some value =>
        build model
          [summarize [value] [label];
           order_by (column (column_name value)) "desc"]
          chart
    end.
Proof.
  unfold fetchDonutChartData, prepareDonutQuery.
  destruct (negb (JS.truthy (label_column config))); [reflexivity|].
  destruct (negb (JS.truthy (value_column config))); [reflexivity|].
  destruct (getDimension model (label_column config)) as [label|];
    [|reflexivity].
  destruct (getMeasure model (value_column config)) as [value|];
    [|reflexivity].
  unfold build, bind, when, ret. rewrite resetQuery_run.
  destruct (nth_error (queries model) 0) as [mq|]; [|reflexivity].
  unfold chart_query, compiled, with_query, Query.addSummarize,
    Query.addOrderBy, Query.addOperation; simpl.
  rewrite <- !app_assoc. reflexivity.
Qed.

(** [prepareTableQuery] followed by [execute]: of its two independent
    tests exactly one holds. *)
Lemma prepareTableQuery_run (rows columns : list Dimension)
    (values : list Measure) (chart : Chart) :
  (prepareTableQuery model rows columns values ;;
   chart_query Query.execute) chart
  = build model (table_operations rows columns values) chart.
Proof.
  unfold prepareTableQuery, build, bind. rewrite resetQuery_run.
  destruct (nth_error (queries model) 0) as [mq|]; [|reflexivity].
  destruct columns; reflexivity.
Qed.

(** [fetchTableChartData], check by check. *)
Lemma fetchTableChartData_run (config : ChartConfig) (chart : Chart) :
  fetchTableChartData model config chart =
  match rows config with
  | None =>
      (Throw (JS.TypeError "Cannot read properties of undefined"), chart)
  | Some [] => (Throw (JS.Error "Rows are required"), chart)
  | Some (r :: rs) =>
      match columns config, values config with
      | Some cs, Some vs =>
          build model
            (table_operations
               (resolved_dimensions model (r :: rs))
               (resolved_dimensions model cs)
               (resolved_measures model vs))
            chart
      | _, _ =>
          (Throw (JS.TypeError "Cannot read properties of undefined"), chart)
      end
  end.
Proof.
  unfold fetchTableChartData.
  destruct (rows config) as [[|r rs]|]; try reflexivity.
  destruct (columns config) as [cs|]; [|reflexivity].
  destruct (values config) as [vs|]; [|reflexivity].
  cbv [property when]. unfold bind at 1 2 3 4 5 6. cbv [ret Nat.eqb length].
  apply prepareTableQuery_run.
Qed.

(** *** Every compile ends in one of the four ways *)

Lemma build_outcome (emitted : list Operation) (chart : Chart) :
  emitted <> [] ->
  existsb is_filter emitted = false ->
  outcome model chart (build model emitted chart).
Proof.
  intros Hne Hnf. unfold build.
  destruct (nth_error (queries model) 0) as [mq|] eqn:Hq.
  - now apply finished.
  - now apply stopped.
Qed.

Ltac reject := eapply rejected; reflexivity.

Lemma fetchAxisChartData_outcome (config : ChartConfig) (chart : Chart) :
  outcome model chart (fetchAxisChartData model count config chart).
Proof.
  rewrite fetchAxisChartData_run.
  destruct (negb _); [reject|].
  destruct (JS.strict_eq _ _); [reject|].
  destruct (getDimension model (x_axis config)); [|reject].
  apply build_outcome; [discriminate|].
  destruct (getDimension model (split_by config)); reflexivity.
Qed.

Lemma fetchMetricChartData_outcome (config : ChartConfig) (chart : Chart) :
  outcome model chart
    (fetchMetricChartData model StringToNumber NumberToString config chart).
Proof.
  rewrite fetchMetricChartData_run.
  destruct (_ && _); [reject|].
  destruct (JS.strict_eq _ _); [reject|].
  destruct (_ && _); [reject|].
  destruct (getMeasure model (metric_column config)) as [metric|]; [|reject].
  unfold metric_operations.
  destruct (is_positive_number _).
  - apply build_outcome; [discriminate|reflexivity].
  - destruct (metric_target _ _ _), (getDimension model (date_column config));
      (apply build_outcome; [discriminate|reflexivity]).
Qed.

Lemma fetchDonutChartData_outcome (config : ChartConfig) (chart : Chart) :
  outcome model chart (fetchDonutChartData model config chart).
Proof.
  rewrite fetchDonutChartData_run.
  destruct (negb _); [reject|].
  destruct (negb _); [reject|].
  destruct (getDimension model (label_column config)); [|reject].
  destruct (getMeasure model (value_column config)); [|reject].
  apply build_outcome; [discriminate|reflexivity].
Qed.

Lemma fetchTableChartData_outcome (config : ChartConfig) (chart : Chart) :
  outcome model chart (fetchTableChartData model config chart).
Proof.
  rewrite fetchTableChartData_run.
  destruct (rows config) as [[|r rs]|]; [reject| |apply unreadable].
  destruct (columns config) as [cs|]; [|apply unreadable].
  destruct (values config) as [vs|]; [|apply unreadable].
  unfold table_operations.
  destruct (resolved_dimensions model cs);
    (apply build_outcome; [discriminate|reflexivity]).
Qed.

(** *** The dispatcher *)

Lemma outcome_frame (chart chart' : Chart) (r : Completion unit) :
  outcome model chart (r, chart') ->
  type chart' = type chart /\ config chart' = config chart /\
  filters chart' = filters chart.
Proof. intros H. inversion H; subst; repeat split. Qed.

Lemma bind_Normal_inv {A B : Type} (c : M A) (k : A -> M B)
    (chart chart' : Chart) (b : B) :
  (x <- c ;; k x) chart = (Normal b, chart') ->
  exists a middle, c chart = (Normal a, middle) /\ k a middle = (Normal b, chart').
Proof.
  unfold bind. destruct (c chart) as [[a|e] middle]; [|discriminate].
  intros H. now exists a, middle.
Qed.

Lemma refreshChart_steps :
  refreshChart model StringToNumber NumberToString count AXIS_CHARTS =
  (dispatch_on (JS.includes AXIS_CHARTS) (fetchAxisChartData model count) ;;
   dispatch_on (fun t => t =? "Metric")
     (fetchMetricChartData model StringToNumber NumberToString) ;;
   dispatch_on (fun t => t =? "Donut") (fetchDonutChartData model) ;;
   dispatch_on (fun t => t =? "Table") (fetchTableChartData model)).
Proof. reflexivity. Qed.

Lemma dispatch_on_run (applies : ChartType -> bool)
    (fetch : ChartConfig -> M unit) (chart : Chart) :
  dispatch_on applies fetch chart =
  if applies (type chart) then fetch (config chart) chart
  else (Normal tt, chart).
Proof.
  unfold dispatch_on, bind, get, when, ret.
  destruct (applies (type chart)); reflexivity.
Qed.

Lemma includes_apart (xs : list string) (s t : string) :
  JS.includes xs s = true -> JS.includes xs t = false -> (s =? t) = false.
Proof.
  intros Hs Ht. destruct (s =? t) eqn:E; [|reflexivity].
  apply String.eqb_eq in E. subst. congruence.
Qed.

Lemma refreshChart_run (chart : Chart) :
  one_compile_per_type AXIS_CHARTS ->
  refreshChart model StringToNumber NumberToString count AXIS_CHARTS chart =
  if JS.includes AXIS_CHARTS (type chart) then
    fetchAxisChartData model count (config chart) chart
  else if type chart =? "Metric" then
    fetchMetricChartData model StringToNumber NumberToString (config chart) chart
  else if type chart =? "Donut" then
    fetchDonutChartData model (config chart) chart
  else if type chart =? "Table" then
    fetchTableChartData model (config chart) chart
  else (Normal tt, chart).
Proof.
  intros (HM & HD & HT). rewrite refreshChart_steps.
  assert (Hskip : forall (after : Chart) (applies : ChartType -> bool)
                         (fetch : ChartConfig -> M unit) (rest : M unit),
             applies (type after) = false ->
             (dispatch_on applies fetch ;; rest) after = rest after).
  { intros after applies fetch rest Hno. unfold bind at 1.
    now rewrite dispatch_on_run, Hno. }
  assert (Hlast : forall (after : Chart) (applies : ChartType -> bool)
                         (fetch : ChartConfig -> M unit),
             applies (type after) = false ->
             dispatch_on applies fetch after = (Normal tt, after)).
  { intros after applies fetch Hno. now rewrite dispatch_on_run, Hno. }
  unfold bind at 1. rewrite dispatch_on_run.
  destruct (JS.includes AXIS_CHARTS (type chart)) eqn:Haxis.
  - pose proof (fetchAxisChartData_outcome (config chart) chart) as Hout.
    destruct (fetchAxisChartData model count (config chart) chart)
      as [[[]|e] after]; [|reflexivity].
    apply outcome_frame in Hout as (Ht & _ & _).
    rewrite !Hskip, Hlast; rewrite ?Ht; eauto using includes_apart.
  - unfold bind at 1. rewrite dispatch_on_run.
    destruct (type chart =? "Metric") eqn:Hm.
    + apply String.eqb_eq in Hm.
      pose proof (fetchMetricChartData_outcome (config chart) chart) as Hout.
      destruct (fetchMetricChartData _ _ _ _ _) as [[[]|e] after];
        [|reflexivity].
      apply outcome_frame in Hout as (Ht & _ & _).
      rewrite Hskip, Hlast; rewrite ?Ht, ?Hm; reflexivity.
    + unfold bind at 1. rewrite dispatch_on_run.
      destruct (type chart =? "Donut") eqn:Hd.
      * apply String.eqb_eq in Hd.
        pose proof (fetchDonutChartData_outcome (config chart) chart) as Hout.
        destruct (fetchDonutChartData _ _ _) as [[[]|e] after];
          [|reflexivity].
        apply outcome_frame in Hout as (Ht & _ & _).
        rewrite Hlast; rewrite ?Ht, ?Hd; reflexivity.
      * rewrite dispatch_on_run.
        destruct (type chart =? "Table"); reflexivity.
Qed.

(** ** The properties *)

(** C1, as the code has it: when [target_value] and [target_column] are
    both truthy (a number other than zero and NaN or a non-empty string,
    and a non-empty column name), the Metric compile is rejected with the
    ConflictingFields error "Target value and target column cannot be used
    together", whatever the other fields, the chart and the data model
    are; the chart is left as it was. *)
Theorem metric_target_value_and_column_conflict
    (config : ChartConfig) (chart : Chart) :
  JS.truthy_value (target_value config) = true ->
  JS.truthy (target_column config) = true ->
  fetchMetricChartData model StringToNumber NumberToString config chart
  = (Throw (JS.Error "Target value and target column cannot be used together"),
     chart)
  /\ config_error
       (JS.Error "Target value and target column cannot be used together")
     = Some ConflictingFields.
Proof.
  intros Hvalue Hcolumn.
  rewrite fetchMetricChartData_run, Hvalue, Hcolumn.
  split; reflexivity.
Qed.

(** C2: a Metric configuration whose [target_value] is not a positive
    number (zero in particular) does not take the literal-target branch.
    When the compile goes through, no operation deriving a field "target"
    is appended, and the plan is the base plan followed by the one
    summarize of a later branch: metric and target measure, metric by
    date, or metric alone. *)
Theorem metric_nonpositive_target_falls_through
    (config : ChartConfig) (chart chart' : Chart) :
  PrimFloat.ltb 0%float (Number StringToNumber (target_value config)) = false ->
  fetchMetricChartData model StringToNumber NumberToString config chart
  = (Normal tt, chart') ->
  is_positive_number (metric_target model StringToNumber config) = false /\
  exists modelQuery metric emitted,
    nth_error (queries model) 0 = Some modelQuery /\
    getMeasure model (metric_column config) = Some metric /\
    chart' = compiled modelQuery emitted chart /\
    existsb is_target_mutate emitted = false /\
    ((exists target,
         getMeasure model (target_column config) = Some target /\
         emitted = [summarize [metric; target] []]) \/
     (exists date,
         getDimension model (date_column config) = Some date /\
         emitted = [summarize [metric] [date]]) \/
     emitted = [summarize [metric] []]).
Proof.
  intros Hnonpositive Hrun.
  assert (Hbranch :
            is_positive_number (metric_target model StringToNumber config)
            = false).
  { unfold metric_target.
    destruct (JS.truthy_value (target_value config)); [exact Hnonpositive|].
    destruct (getMeasure model (target_column config)); reflexivity. }
  split; [exact Hbranch|].
  revert Hrun. rewrite fetchMetricChartData_run.
  destruct (_ && _); [discriminate|].
  destruct (JS.strict_eq _ _); [discriminate|].
  destruct (_ && _); [discriminate|].
  destruct (getMeasure model (metric_column config)) as [metric|];
    [|discriminate].
  unfold build, metric_operations. rewrite Hbranch.
  destruct (nth_error (queries model) 0) as [mq|]; [|discriminate].
  intros Hrun. exists mq, metric.
  unfold metric_target in *.
  destruct (JS.truthy_value (target_value config)).
  - destruct (getDimension model (date_column config)) as [date|];
      injection Hrun as <-; eexists; repeat split; eauto.
  - destruct (getMeasure model (target_column config)) as [target|].
    + injection Hrun as <-. eexists; repeat split; eauto.
    + destruct (getDimension model (date_column config)) as [date|];
        injection Hrun as <-; eexists; repeat split; eauto.
Qed.

(** C3: an Axis compile that goes through appends exactly one operation to
    the base plan.  When [split_by] names a dimension of the model it is
    the pivot-wider with rows = [x_axis dimension], columns = [split_by
    dimension] and values = the measures, and no summarize is appended;
    when [split_by] is absent or names no dimension it is the summarize
    with dimensions = [x_axis dimension] and the measures, and no
    pivot-wider is appended. *)
Theorem axis_split_by_selects_pivot_wider
    (config : ChartConfig) (chart chart' : Chart) :
  fetchAxisChartData model count config chart = (Normal tt, chart') ->
  exists modelQuery row emitted,
    nth_error (queries model) 0 = Some modelQuery /\
    getDimension model (x_axis config) = Some row /\
    chart' = compiled modelQuery emitted chart /\
    (forall name col,
        split_by config = Some name ->
        dimension_named model name = Some col ->
        emitted = [pivot_wider [row] [col] (axis_measures model count config)]
        /\ existsb is_summarize emitted = false) /\
    (split_by config = None \/
     (exists name,
         split_by config = Some name /\ dimension_named model name = None) ->
     emitted = [summarize (axis_measures model count config) [row]]
     /\ existsb is_pivot_wider emitted = false).
Proof.
  rewrite fetchAxisChartData_run.
  destruct (negb _); [discriminate|].
  destruct (JS.strict_eq _ _); [discriminate|].
  destruct (getDimension model (x_axis config)) as [row|]; [|discriminate].
  unfold build.
  destruct (nth_error (queries model) 0) as [mq|]; [|discriminate].
  intros Hrun. injection Hrun as <-.
  exists mq, row. eexists. do 3 (split; [reflexivity|]).
  split.
  - intros name col Hsplit Hcol.
    rewrite Hsplit; simpl. rewrite Hcol. split; reflexivity.
  - intros [Habsent | (name & Hsplit & Hcol)].
    + rewrite Habsent. split; reflexivity.
    + rewrite Hsplit; simpl. rewrite Hcol. split; reflexivity.
Qed.

(** C4: a Table compile that goes through takes exactly one build path,
    chosen by the resolved columns: when none is left, the one operation
    appended is the summarize with dimensions = resolved rows and measures
    = resolved values; when some are left, it is the pivot-wider with the
    resolved rows, columns and values.  The two cases exclude each other
    and leave no third. *)
Theorem table_columns_select_build_path
    (config : ChartConfig) (chart chart' : Chart) :
  fetchTableChartData model config chart = (Normal tt, chart') ->
  exists modelQuery rs cs vs emitted,
    nth_error (queries model) 0 = Some modelQuery /\
    rows config = Some rs /\ columns config = Some cs /\
    values config = Some vs /\
    chart' = compiled modelQuery emitted chart /\
    let R := resolved_dimensions model rs in
    let C := resolved_dimensions model cs in
    let V := resolved_measures model vs in
    (C = [] /\ emitted = [summarize V R]) \/
    (C <> [] /\ emitted = [pivot_wider R C V]).
Proof.
  rewrite fetchTableChartData_run.
  destruct (rows config) as [[|r rs]|]; try discriminate.
  destruct (columns config) as [cs|]; [|discriminate].
  destruct (values config) as [vs|]; [|discriminate].
  unfold build.
  destruct (nth_error (queries model) 0) as [mq|]; [|discriminate].
  intros Hrun. injection Hrun as <-.
  exists mq, (r :: rs), cs, vs. eexists. do 5 (split; [reflexivity|]).
  destruct (resolved_dimensions model cs) as [|c rest]; simpl.
  - left. split; reflexivity.
  - right. split; [discriminate|reflexivity].
Qed.

(** C5: a compile that ends with a MissingField, ConflictingFields or
    UnknownColumn error leaves the chart exactly as it found it: nothing
    was appended to the plan and nothing was handed to execution.  This
    holds for each of the four compiles on any configuration, and for the
    dispatcher on any chart type as long as one type selects one compile. *)
Theorem config_errors_leave_chart_untouched :
  (forall (compile : ChartConfig -> M unit),
      compile = fetchAxisChartData model count \/
      compile = fetchMetricChartData model StringToNumber NumberToString \/
      compile = fetchDonutChartData model \/
      compile = fetchTableChartData model ->
      forall config chart chart' e kind,
        compile config chart = (Throw e, chart') ->
        config_error e = Some kind ->
        chart' = chart) /\
  (one_compile_per_type AXIS_CHARTS ->
   forall chart chart' e kind,
     refreshChart model StringToNumber NumberToString count AXIS_CHARTS chart
     = (Throw e, chart') ->
     config_error e = Some kind ->
     chart' = chart /\
     Query.operations (query chart') = Query.operations (query chart) /\
     Query.executed (query chart') = Query.executed (query chart)).
Proof.
  assert (Hkept : forall chart chart' e kind,
             outcome model chart (Throw e, chart') ->
             config_error e = Some kind -> chart' = chart).
  { intros chart chart' e kind Hout Hkind.
    inversion Hout; subst; try reflexivity; discriminate. }
  split.
  - intros compile Hcompile config chart chart' e kind Hrun Hkind.
    apply (Hkept _ _ e kind); [|exact Hkind]. rewrite <- Hrun.
    destruct Hcompile as [-> | [-> | [-> | ->]]].
    + apply fetchAxisChartData_outcome.
    + apply fetchMetricChartData_outcome.
    + apply fetchDonutChartData_outcome.
    + apply fetchTableChartData_outcome.
  - intros Hone chart chart' e kind Hrun Hkind.
    assert (chart' = chart) as ->; [|repeat split].
    apply (Hkept _ _ e kind); [|exact Hkind].
    rewrite refreshChart_run in Hrun by exact Hone.
    destruct (JS.includes AXIS_CHARTS (type chart));
      [rewrite <- Hrun; apply fetchAxisChartData_outcome|].
    destruct (type chart =? "Metric");
      [rewrite <- Hrun; apply fetchMetricChartData_outcome|].
    destruct (type chart =? "Donut");
      [rewrite <- Hrun; apply fetchDonutChartData_outcome|].
    destruct (type chart =? "Table");
      [rewrite <- Hrun; apply fetchTableChartData_outcome|].
    discriminate.
Qed.

(** C6: when nothing of [y_axis] resolves to a measure (the list is empty,
    or none of its names is a measure of the model, or it is left out),
    the measures of the plan of an Axis compile are exactly the one
    row-count measure [count()], on the pivot-wider path and on the
    summarize path alike. *)
Theorem axis_without_measures_counts_rows
    (config : ChartConfig) (chart chart' : Chart) :
  (forall ys, y_axis config = Some ys -> resolved_measures model ys = []) ->
  fetchAxisChartData model count config chart = (Normal tt, chart') ->
  axis_measures model count config = [count] /\
  exists modelQuery row,
    nth_error (queries model) 0 = Some modelQuery /\
    getDimension model (x_axis config) = Some row /\
    match getDimension model (split_by config) with
    | Some col =>
        chart' = compiled modelQuery [pivot_wider [row] [col] [count]] chart
    | None =>
        chart' = compiled modelQuery [summarize [count] [row]] chart
    end.
Proof.
  intros Hempty Hrun.
  assert (Hcount : axis_measures model count config = [count]).
  { unfold axis_measures.
    destruct (y_axis config) as [ys|]; simpl; [|reflexivity].
    now rewrite (Hempty ys eq_refl). }
  split; [exact Hcount|].
  revert Hrun. rewrite fetchAxisChartData_run, Hcount.
  destruct (negb _); [discriminate|].
  destruct (JS.strict_eq _ _); [discriminate|].
  destruct (getDimension model (x_axis config)) as [row|]; [|discriminate].
  unfold build.
  destruct (nth_error (queries model) 0) as [mq|]; [|discriminate].
  intros Hrun. injection Hrun as <-.
  exists mq, row. do 2 (split; [reflexivity|]).
  destruct (getDimension model (split_by config)); reflexivity.
Qed.

(** C7: the plan of a Donut compile that goes through ends with the
    order-by on the column name of the resolved value measure, direction
    descending, and the operation before it is the summarize with
    dimensions = [label] and measures = [value]; the two follow the base
    plan. *)
Theorem donut_orders_by_value_descending
    (config : ChartConfig) (chart chart' : Chart) :
  fetchDonutChartData model config chart = (Normal tt, chart') ->
  exists modelQuery label value,
    nth_error (queries model) 0 = Some modelQuery /\
    getDimension model (label_column config) = Some label /\
    getMeasure model (value_column config) = Some value /\
    Query.operations (query chart')
    = (base_operations modelQuery (filters chart)
       ++ [summarize [value] [label]])
      ++ [order_by (column (column_name value)) "desc"] /\
    last (Query.operations (query chart')) (other "")
    = order_by (column (column_name value)) "desc" /\
    last (removelast (Query.operations (query chart'))) (other "")
    = summarize [value] [label].
Proof.
  rewrite fetchDonutChartData_run.
  destruct (negb _); [discriminate|].
  destruct (negb _); [discriminate|].
  destruct (getDimension model (label_column config)) as [label|];
    [|discriminate].
  destruct (getMeasure model (value_column config)) as [value|];
    [|discriminate].
  unfold build.
  destruct (nth_error (queries model) 0) as [mq|]; [|discriminate].
  intros Hrun. injection Hrun as <-.
  exists mq, label, value. do 3 (split; [reflexivity|]).
  assert (Hplan :
            Query.operations
              (query
                 (compiled mq
                    [summarize [value] [label];
                     order_by (column (column_name value)) "desc"]
                    chart))
            = (base_operations mq (filters chart)
               ++ [summarize [value] [label]])
              ++ [order_by (column (column_name value)) "desc"]).
  { simpl. now rewrite <- app_assoc. }
  rewrite Hplan. split; [reflexivity|].
  rewrite removelast_last, !last_last. split; reflexivity.
Qed.

(** C9: a Metric configuration with neither [metric_column] nor
    [target_column] is rejected by the equality check, with the
    ConflictingFields error "Metric and target cannot be the same", and
    not with the UnknownColumn error of the unresolved metric column. *)
Theorem metric_and_target_both_absent_conflict
    (config : ChartConfig) (chart : Chart) :
  metric_column config = None ->
  target_column config = None ->
  fetchMetricChartData model StringToNumber NumberToString config chart
  = (Throw (JS.Error "Metric and target cannot be the same"), chart)
  /\ config_error (JS.Error "Metric and target cannot be the same")
     = Some ConflictingFields
  /\ fetchMetricChartData model StringToNumber NumberToString config chart
     <> (Throw (JS.Error "Metric column not found"), chart).
Proof.
  intros Hmetric Htarget.
  rewrite fetchMetricChartData_run, Hmetric, Htarget.
  rewrite andb_false_r. simpl.
  repeat split. discriminate.
Qed.

(** C10: a Table configuration whose [rows] has entries none of which is a
    dimension of the model compiles without any error.  With its three
    lists in place and the model query at hand, the plan is built on empty
    rows (the summarize with no dimension and the resolved values when no
    column resolves either, the pivot-wider otherwise) and is handed to
    execution. *)
Theorem table_unresolved_rows_still_compile
    (config : ChartConfig) (chart : Chart) (modelQuery : ModelQuery.t)
    (rs cs vs : list string) :
  rows config = Some rs ->
  rs <> [] ->
  resolved_dimensions model rs = [] ->
  columns config = Some cs ->
  values config = Some vs ->
  nth_error (queries model) 0 = Some modelQuery ->
  exists emitted,
    fetchTableChartData model config chart
    = (Normal tt, compiled modelQuery emitted chart) /\
    (resolved_dimensions model cs = [] ->
     emitted = [summarize (resolved_measures model vs) []]) /\
    (resolved_dimensions model cs <> [] ->
     emitted = [pivot_wider [] (resolved_dimensions model cs)
                  (resolved_measures model vs)]) /\
    Query.executed (query (compiled modelQuery emitted chart))
    = Query.executed (query chart)
      ++ [(ModelQuery.dataSource modelQuery,
           base_operations modelQuery (filters chart) ++ emitted)].
Proof.
  intros Hrows Hsome Hnone Hcolumns Hvalues Hquery.
  rewrite fetchTableChartData_run, Hrows, Hcolumns, Hvalues.
  destruct rs as [|r rs]; [contradiction|].
  unfold build. rewrite Hquery, Hnone.
  eexists. split; [reflexivity|].
  unfold table_operations.
  destruct (resolved_dimensions model cs) as [|c rest].
  - repeat split. intros Habsurd. contradiction.
  - repeat split. discriminate.
Qed.

Lemma finished_based_on (chart before after : Chart) :
  same_inputs chart before ->
  outcome model before (Normal tt, after) ->
  same_inputs chart after /\ based_on model chart after.
Proof.
  intros (Htype & Hconfig & Hfilters) Hout.
  inversion Hout as [ | | | mq emitted Hq Hne Hnf]; subst.
  split; [repeat split; assumption|].
  exists mq, emitted. repeat split; try assumption.
  simpl. unfold base_operations. rewrite Hfilters, <- app_assoc.
  destruct (filters chart); reflexivity.
Qed.

Lemma dispatch_on_based_on (applies : ChartType -> bool)
    (fetch : ChartConfig -> M unit) (chart before after : Chart) :
  (forall config c, outcome model c (fetch config c)) ->
  same_inputs chart before ->
  dispatch_on applies fetch before = (Normal tt, after) ->
  same_inputs chart after /\
  (applies (type chart) = false /\ after = before \/ based_on model chart after).
Proof.
  intros Hfetch Hsame. rewrite dispatch_on_run.
  destruct Hsame as (Htype & Hrest). rewrite Htype.
  destruct (applies (type chart)).
  - intros Hrun. pose proof (Hfetch (config before) before) as Hout.
    rewrite Hrun in Hout.
    destruct (finished_based_on chart before after) as (Hsame' & Hbased);
      [split; assumption | assumption | ].
    split; [assumption | right; assumption].
  - intros Hrun. injection Hrun as <-.
    split; [split; assumption | left; split; reflexivity].
Qed.

(** C8: after a compile of any chart type has gone through, the chart's
    query has the data source of the model query and a plan that starts
    with the model query's operations; the filters of the chart come next
    as one filter operation when there are any, and are not added when
    there are none; the operations of the chart type follow, at least
    one and none of them a filter. *)
Theorem compiled_plan_starts_from_base (chart chart' : Chart) :
  JS.includes AXIS_CHARTS (type chart)
  || (type chart =? "Metric") || (type chart =? "Donut")
  || (type chart =? "Table") = true ->
  refreshChart model StringToNumber NumberToString count AXIS_CHARTS chart
  = (Normal tt, chart') ->
  exists modelQuery emitted,
    nth_error (queries model) 0 = Some modelQuery /\
    Query.dataSource (query chart') = ModelQuery.dataSource modelQuery /\
    Query.operations (query chart')
    = ModelQuery.operations modelQuery
      ++ match filters chart with
         | [] => []
         | _ :: _ => [filter_group (filters chart)]
         end
      ++ emitted /\
    emitted <> [] /\
    existsb is_filter emitted = false.
Proof.
  intros Hknown. rewrite refreshChart_steps. intros Hrun.
  apply bind_Normal_inv in Hrun as ([] & c1 & Haxis & Hrun).
  apply bind_Normal_inv in Hrun as ([] & c2 & Hmetric & Hrun).
  apply bind_Normal_inv in Hrun as ([] & c3 & Hdonut & Htable).
  apply (dispatch_on_based_on _ _ chart) in Haxis as (S1 & B1);
    [ | intros; apply fetchAxisChartData_outcome | repeat split ].
  apply (dispatch_on_based_on _ _ chart) in Hmetric as (S2 & B2);
    [ | intros; apply fetchMetricChartData_outcome | exact S1 ].
  apply (dispatch_on_based_on _ _ chart) in Hdonut as (S3 & B3);
    [ | intros; apply fetchDonutChartData_outcome | exact S2 ].
  apply (dispatch_on_based_on _ _ chart) in Htable as (S4 & B4);
    [ | intros; apply fetchTableChartData_outcome | exact S3 ].
  fold (based_on model chart chart').
  destruct B4 as [(N4 & ->) | B4]; [|exact B4].
  destruct B3 as [(N3 & ->) | B3]; [|exact B3].
  destruct B2 as [(N2 & ->) | B2]; [|exact B2].
  destruct B1 as [(N1 & ->) | B1]; [|exact B1].
  rewrite N1, N2, N3, N4 in Hknown. discriminate.
Qed.

End Properties.

(** ** The properties on the sales model *)

Example NumberToString_100 : Sales.NumberToString 100%float = "100".
Proof. vm_compute. reflexivity. Qed.

Example StringToNumber_100 : Sales.StringToNumber "100" = 100%float.
Proof. vm_compute. reflexivity. Qed.

(** The two end-to-end examples of the specification (section 8). *)
Example axis_end_to_end :
  refreshChart Sales.model Sales.StringToNumber Sales.NumberToString
    Sales.count Sales.AXIS_CHARTS
    (Sales.chart "Bar"
       (Sales.axis_config (Some "quarter") (Some ["revenue"])) [])
  = (Normal tt,
     compiled Sales.upstream
       [pivot_wider [Sales.dimension "region"] [Sales.dimension "quarter"]
          [Sales.sum_of "revenue"]]
       (Sales.chart "Bar"
          (Sales.axis_config (Some "quarter") (Some ["revenue"])) [])).
Proof. vm_compute. reflexivity. Qed.

Example metric_end_to_end :
  refreshChart Sales.model Sales.StringToNumber Sales.NumberToString
    Sales.count Sales.AXIS_CHARTS
    (Sales.chart "Metric"
       (Sales.metric_config (Some "signups") (JS.Str "100") None None) [])
  = (Normal tt,
     compiled Sales.upstream
       [summarize [Sales.sum_of "signups"] [];
        mutate_op (mutate "target" "Decimal" (expression "literal(100)"))]
       (Sales.chart "Metric"
          (Sales.metric_config (Some "signups") (JS.Str "100") None None) [])).
Proof. vm_compute. reflexivity. Qed.

(** C1 as stated fails: with [target_value] set to the number 0 and
    [target_column] set to "goal", the Metric compile raises nothing and
    builds the measure-target plan. *)
Lemma metric_zero_target_value_with_column_compiles :
  let config :=
    Sales.metric_config (Some "signups") (JS.Num 0%float) (Some "goal") None in
  target_value config <> JS.Undefined /\
  target_column config <> None /\
  fetchMetricChartData Sales.model Sales.StringToNumber Sales.NumberToString
    config (Sales.chart "Metric" config [])
  = (Normal tt,
     compiled Sales.upstream
       [summarize [Sales.sum_of "signups"; Sales.sum_of "goal"] []]
       (Sales.chart "Metric" config [])).
Proof.
  split; [discriminate|]. split; [discriminate|].
  vm_compute. reflexivity.
Qed.

Lemma metric_target_value_and_column_conflict_witness :
  let config :=
    Sales.metric_config (Some "signups") (JS.Str "100") (Some "goal") None in
  fetchMetricChartData Sales.model Sales.StringToNumber Sales.NumberToString
    config (Sales.chart "Metric" config [])
  = (Throw (JS.Error "Target value and target column cannot be used together"),
     Sales.chart "Metric" config [])
  /\ config_error
       (JS.Error "Target value and target column cannot be used together")
     = Some ConflictingFields.
Proof.
  apply metric_target_value_and_column_conflict; reflexivity.
Defined.

Lemma metric_nonpositive_target_falls_through_witness :
  let config :=
    Sales.metric_config (Some "signups") (JS.Num 0%float) None (Some "day") in
  let chart := Sales.chart "Metric" config [Sales.this_year] in
  let chart' :=
    compiled Sales.upstream
      [summarize [Sales.sum_of "signups"] [Sales.dimension "day"]] chart in
  is_positive_number
    (metric_target Sales.model Sales.StringToNumber config) = false /\
  exists modelQuery metric emitted,
    nth_error (queries Sales.model) 0 = Some modelQuery /\
    getMeasure Sales.model (metric_column config) = Some metric /\
    chart' = compiled modelQuery emitted chart /\
    existsb is_target_mutate emitted = false /\
    ((exists target,
         getMeasure Sales.model (target_column config) = Some target /\
         emitted = [summarize [metric; target] []]) \/
     (exists date,
         getDimension Sales.model (date_column config) = Some date /\
         emitted = [summarize [metric] [date]]) \/
     emitted = [summarize [metric] []]).
Proof.
  apply (metric_nonpositive_target_falls_through
           Sales.model Sales.StringToNumber Sales.NumberToString).
  - reflexivity.
  - vm_compute. reflexivity.
Defined.

Lemma axis_split_by_selects_pivot_wider_witness :
  let config := Sales.axis_config (Some "quarter") (Some ["revenue"]) in
  let chart := Sales.chart "Bar" config [] in
  let chart' :=
    compiled Sales.upstream
      [pivot_wider [Sales.dimension "region"] [Sales.dimension "quarter"]
         [Sales.sum_of "revenue"]]
      chart in
  exists modelQuery row emitted,
    nth_error (queries Sales.model) 0 = Some modelQuery /\
    getDimension Sales.model (x_axis config) = Some row /\
    chart' = compiled modelQuery emitted chart /\
    (forall name col,
        split_by config = Some name ->
        dimension_named Sales.model name = Some col ->
        emitted
        = [pivot_wider [row] [col]
             (axis_measures Sales.model Sales.count config)]
        /\ existsb is_summarize emitted = false) /\
    (split_by config = None \/
     (exists name,
         split_by config = Some name /\
         dimension_named Sales.model name = None) ->
     emitted = [summarize (axis_measures Sales.model Sales.count config) [row]]
     /\ existsb is_pivot_wider emitted = false).
Proof.
  apply (axis_split_by_selects_pivot_wider Sales.model Sales.count).
  vm_compute. reflexivity.
Defined.

Lemma table_columns_select_build_path_witness :
  let config := Sales.table_config ["region"] ["quarter"] ["revenue"] in
  let chart := Sales.chart "Table" config [] in
  let chart' :=
    compiled Sales.upstream
      [pivot_wider [Sales.dimension "region"] [Sales.dimension "quarter"]
         [Sales.sum_of "revenue"]]
      chart in
  exists modelQuery rs cs vs emitted,
    nth_error (queries Sales.model) 0 = Some modelQuery /\
    rows config = Some rs /\ columns config = Some cs /\
    values config = Some vs /\
    chart' = compiled modelQuery emitted chart /\
    ((resolved_dimensions Sales.model cs = [] /\
      emitted = [summarize (resolved_measures Sales.model vs)
                   (resolved_dimensions Sales.model rs)]) \/
     (resolved_dimensions Sales.model cs <> [] /\
      emitted = [pivot_wider (resolved_dimensions Sales.model rs)
                   (resolved_dimensions Sales.model cs)
                   (resolved_measures Sales.model vs)])).
Proof.
  apply (table_columns_select_build_path Sales.model).
  vm_compute. reflexivity.
Defined.

Lemma config_errors_leave_chart_untouched_witness :
  let chart := Sales.chart "Bar" empty_config [Sales.this_year] in
  let run :=
    refreshChart Sales.model Sales.StringToNumber Sales.NumberToString
      Sales.count Sales.AXIS_CHARTS chart in
  one_compile_per_type Sales.AXIS_CHARTS /\
  fst run = Throw (JS.Error "X-axis is required") /\
  config_error (JS.Error "X-axis is required") = Some MissingField /\
  snd run = chart /\
  Query.operations (query (snd run)) = Query.operations (query chart) /\
  Query.executed (query (snd run)) = Query.executed (query chart).
Proof.
  assert (Hone : one_compile_per_type Sales.AXIS_CHARTS)
    by (repeat split; reflexivity).
  split; [exact Hone|].
  split; [vm_compute; reflexivity|].
  split; [reflexivity|].
  apply (proj2 (config_errors_leave_chart_untouched
                  Sales.model Sales.StringToNumber Sales.NumberToString
                  Sales.count Sales.AXIS_CHARTS)
           Hone _ _ (JS.Error "X-axis is required") MissingField).
  - vm_compute. reflexivity.
  - reflexivity.
Defined.

Lemma axis_without_measures_counts_rows_witness :
  let config := Sales.axis_config None (Some ["margin"]) in
  let chart := Sales.chart "Line" config [] in
  let chart' :=
    compiled Sales.upstream
      [summarize [Sales.count] [Sales.dimension "region"]] chart in
  axis_measures Sales.model Sales.count config = [Sales.count] /\
  exists modelQuery row,
    nth_error (queries Sales.model) 0 = Some modelQuery /\
    getDimension Sales.model (x_axis config) = Some row /\
    match getDimension Sales.model (split_by config) with
    | Some col =>
        chart'
        = compiled modelQuery [pivot_wider [row] [col] [Sales.count]] chart
    | None =>
        chart' = compiled modelQuery [summarize [Sales.count] [row]] chart
    end.
Proof.
  apply (axis_without_measures_counts_rows Sales.model Sales.count).
  - intros ys Hys. injection Hys as <-. reflexivity.
  - vm_compute. reflexivity.
Defined.

Lemma donut_orders_by_value_descending_witness :
  let chart := Sales.chart "Donut" Sales.donut_config [Sales.this_year] in
  let chart' :=
    compiled Sales.upstream
      [summarize [Sales.sum_of "revenue"] [Sales.dimension "region"];
       order_by (column "revenue") "desc"]
      chart in
  exists modelQuery label value,
    nth_error (queries Sales.model) 0 = Some modelQuery /\
    getDimension Sales.model (label_column Sales.donut_config) = Some label /\
    getMeasure Sales.model (value_column Sales.donut_config) = Some value /\
    Query.operations (query chart')
    = (base_operations modelQuery (filters chart)
       ++ [summarize [value] [label]])
      ++ [order_by (column (column_name value)) "desc"] /\
    last (Query.operations (query chart')) (other "")
    = order_by (column (column_name value)) "desc" /\
    last (removelast (Query.operations (query chart'))) (other "")
    = summarize [value] [label].
Proof.
  apply (donut_orders_by_value_descending Sales.model).
  vm_compute. reflexivity.
Defined.

Lemma compiled_plan_starts_from_base_witness :
  let chart := Sales.chart "Donut" Sales.donut_config [Sales.this_year] in
  let chart' :=
    compiled Sales.upstream
      [summarize [Sales.sum_of "revenue"] [Sales.dimension "region"];
       order_by (column "revenue") "desc"]
      chart in
  exists modelQuery emitted,
    nth_error (queries Sales.model) 0 = Some modelQuery /\
    Query.dataSource (query chart') = ModelQuery.dataSource modelQuery /\
    Query.operations (query chart')
    = ModelQuery.operations modelQuery
      ++ match filters chart with
         | [] => []
         | _ :: _ => [filter_group (filters chart)]
         end
      ++ emitted /\
    emitted <> [] /\
    existsb is_filter emitted = false.
Proof.
  apply (compiled_plan_starts_from_base
           Sales.model Sales.StringToNumber Sales.NumberToString
           Sales.count Sales.AXIS_CHARTS).
  - reflexivity.
  - vm_compute. reflexivity.
Defined.

Lemma metric_and_target_both_absent_conflict_witness :
  let config := Sales.metric_config None JS.Undefined None (Some "day") in
  let chart := Sales.chart "Metric" config [] in
  fetchMetricChartData Sales.model Sales.StringToNumber Sales.NumberToString
    config chart
  = (Throw (JS.Error "Metric and target cannot be the same"), chart)
  /\ config_error (JS.Error "Metric and target cannot be the same")
     = Some ConflictingFields
  /\ fetchMetricChartData Sales.model Sales.StringToNumber
       Sales.NumberToString config chart
     <> (Throw (JS.Error "Metric column not found"), chart).
Proof.
  apply metric_and_target_both_absent_conflict; reflexivity.
Defined.

Lemma table_unresolved_rows_still_compile_witness :
  let config := Sales.table_config ["margin"; "profit"] [] ["revenue"] in
  let chart := Sales.chart "Table" config [] in
  exists emitted,
    fetchTableChartData Sales.model config chart
    = (Normal tt, compiled Sales.upstream emitted chart) /\
    (resolved_dimensions Sales.model [] = [] ->
     emitted = [summarize (resolved_measures Sales.model ["revenue"]) []]) /\
    (resolved_dimensions Sales.model [] <> [] ->
     emitted = [pivot_wider [] (resolved_dimensions Sales.model [])
                  (resolved_measures Sales.model ["revenue"])]) /\
    Query.executed (query (compiled Sales.upstream emitted chart))
    = Query.executed (query chart)
      ++ [(ModelQuery.dataSource Sales.upstream,
           base_operations Sales.upstream (filters chart) ++ emitted)].
Proof.
  apply (table_unresolved_rows_still_compile Sales.model _ _ Sales.upstream
           ["margin"; "profit"] [] ["revenue"]).
  - reflexivity.
  - discriminate.
  - reflexivity.
  - reflexivity.
  - reflexivity.
  - reflexivity.
Defined.

(** ** Further properties of the compiler *)

Section Coverage.

Variable model : DataModel.
Variable StringToNumber : string -> float.
Variable NumberToString : float -> string.
Variable count : Measure.
Variable AXIS_CHARTS : list ChartType.

Local Abbreviation fetchAxis := (fetchAxisChartData model count).
Local Abbreviation fetchMetric :=
  (fetchMetricChartData model StringToNumber NumberToString).
Local Abbreviation fetchDonut := (fetchDonutChartData model).
Local Abbreviation fetchTable := (fetchTableChartData model).
Local Abbreviation refresh :=
  (refreshChart model StringToNumber NumberToString count AXIS_CHARTS).

(** *** What a compile decides does not depend on the chart's state *)

Lemma fetchAxisChartData_settled (config : ChartConfig) :
  settled model (fetchAxis config).
Proof.
  unfold settled.
  destruct (negb (JS.truthy (x_axis config))) eqn:Hx;
    [left; eexists; intros; rewrite fetchAxisChartData_run, Hx; reflexivity|].
  destruct (JS.strict_eq (x_axis config) (split_by config)) eqn:Hs;
    [left; eexists; intros; rewrite fetchAxisChartData_run, Hx, Hs;
     reflexivity|].
  destruct (getDimension model (x_axis config)) as [row|] eqn:Hrow.
  - right. eexists. split; [|split];
      [| |intros; rewrite fetchAxisChartData_run, Hx, Hs, Hrow; reflexivity].
    + discriminate.
    + destruct (getDimension model (split_by config)); reflexivity.
  - left; eexists; intros.
    rewrite fetchAxisChartData_run, Hx, Hs, Hrow; reflexivity.
Qed.

Lemma fetchMetricChartData_settled (config : ChartConfig) :
  settled model (fetchMetric config).
Proof.
  unfold settled.
  destruct (JS.truthy_value (target_value config) && JS.truthy (target_column config))
    eqn:H1;
    [left; eexists; intros; rewrite fetchMetricChartData_run, H1; reflexivity|].
  destruct (JS.strict_eq (metric_column config) (target_column config)) eqn:H2;
    [left; eexists; intros; rewrite fetchMetricChartData_run, H1, H2;
     reflexivity|].
  destruct (JS.truthy (target_column config) && JS.truthy (date_column config))
    eqn:H3;
    [left; eexists; intros; rewrite fetchMetricChartData_run, H1, H2, H3;
     reflexivity|].
  destruct (getMeasure model (metric_column config)) as [metric|] eqn:Hm.
  - right. eexists. split; [|split];
      [| |intros; rewrite fetchMetricChartData_run, H1, H2, H3, Hm;
          reflexivity].
    + unfold metric_operations.
      destruct (is_positive_number _); [discriminate|].
      destruct (metric_target _ _ _), (getDimension model (date_column config));
        discriminate.
    + unfold metric_operations.
      destruct (is_positive_number _); [reflexivity|].
      destruct (metric_target _ _ _), (getDimension model (date_column config));
        reflexivity.
  - left; eexists; intros.
    rewrite fetchMetricChartData_run, H1, H2, H3, Hm; reflexivity.
Qed.

Lemma fetchDonutChartData_settled (config : ChartConfig) :
  settled model (fetchDonut config).
Proof.
  unfold settled.
  destruct (negb (JS.truthy (label_column config))) eqn:H1;
    [left; eexists; intros; rewrite fetchDonutChartData_run, H1; reflexivity|].
  destruct (negb (JS.truthy (value_column config))) eqn:H2;
    [left; eexists; intros; rewrite fetchDonutChartData_run, H1, H2;
     reflexivity|].
  destruct (getDimension model (label_column config)) as [label|] eqn:Hl;
    [|left; eexists; intros; rewrite fetchDonutChartData_run, H1, H2, Hl;
      reflexivity].
  destruct (getMeasure model (value_column config)) as [value|] eqn:Hv;
    [|left; eexists; intros; rewrite fetchDonutChartData_run, H1, H2, Hl, Hv;
      reflexivity].
  right. eexists. split; [|split];
    [| |intros; rewrite fetchDonutChartData_run, H1, H2, Hl, Hv; reflexivity].
  - discriminate.
  - reflexivity.
Qed.

Lemma fetchTableChartData_settled (config : ChartConfig) :
  settled model (fetchTable config).
Proof.
  unfold settled.
  destruct (rows config) as [[|r rs]|] eqn:Hr;
    [left; eexists; intros; rewrite fetchTableChartData_run, Hr; reflexivity
    | |left; eexists; intros; rewrite fetchTableChartData_run, Hr; reflexivity].
  destruct (columns config) as [cs|] eqn:Hc;
    [|left; eexists; intros; rewrite fetchTableChartData_run, Hr, Hc;
      reflexivity].
  destruct (values config) as [vs|] eqn:Hv;
    [|left; eexists; intros; rewrite fetchTableChartData_run, Hr, Hc, Hv;
      reflexivity].
  right. eexists. split; [|split];
    [| |intros; rewrite fetchTableChartData_run, Hr, Hc, Hv; reflexivity].
  - unfold table_operations. destruct (resolved_dimensions model cs); discriminate.
  - unfold table_operations. destruct (resolved_dimensions model cs); reflexivity.
Qed.

Lemma strict_eq_true (a b : option string) :
  JS.strict_eq a b = true <-> a = b.
Proof.
  destruct a as [x|], b as [y|]; simpl; split; intros H;
    try discriminate; try reflexivity.
  - apply String.eqb_eq in H. now subst.
  - injection H as ->. apply String.eqb_refl.
Qed.

Lemma strict_eq_false (a b : option string) :
  JS.strict_eq a b = false <-> a <> b.
Proof.
  rewrite <- strict_eq_true. destruct (JS.strict_eq a b); split; intros H;
    try discriminate; try reflexivity; now try contradiction H.
Qed.

Lemma build_Normal (emitted : list Operation) (chart chart' : Chart) :
  build model emitted chart = (Normal tt, chart') <->
  exists modelQuery,
    nth_error (queries model) 0 = Some modelQuery /\
    chart' = compiled modelQuery emitted chart.
Proof.
  unfold build. destruct (nth_error (queries model) 0) as [mq|]; split.
  - intros H. injection H as <-. now exists mq.
  - intros (mq' & Hq & ->). injection Hq as <-. reflexivity.
  - discriminate.
  - intros (mq' & Hq & _). discriminate.
Qed.

Lemma has_query :
  queries model <> [] <-> exists modelQuery,
      nth_error (queries model) 0 = Some modelQuery.
Proof.
  destruct (queries model) as [|mq rest]; simpl; split.
  - intros H. contradiction.
  - intros (mq & H). discriminate.
  - intros _. now exists mq.
  - discriminate.
Qed.

(** *** The dispatcher, whatever [AXIS_CHARTS] holds *)

Lemma bind_inv {A B : Type} (c : M A) (k : A -> M B) (chart chart' : Chart)
    (r : Completion B) :
  (x <- c ;; k x) chart = (r, chart') ->
  (exists e, c chart = (Throw e, chart') /\ r = Throw e) \/
  (exists a middle, c chart = (Normal a, middle) /\ k a middle = (r, chart')).
Proof.
  unfold bind. destruct (c chart) as [[a|e] middle]; intros H.
  - right. now exists a, middle.
  - left. injection H as <- <-. now exists e.
Qed.

Lemma outcome_keeps (chart chart' : Chart) (r : Completion unit) :
  outcome model chart (r, chart') ->
  name chart' = name chart /\ type chart' = type chart /\
  config chart' = config chart /\ filters chart' = filters chart.
Proof. intros H. inversion H; subst; repeat split. Qed.

Lemma compiled_from_keeps (chart after : Chart) :
  compiled_from model chart after ->
  name after = name chart /\ type after = type chart /\
  config after = config chart /\ filters after = filters chart.
Proof.
  induction 1 as [|before after _ (Hn & Ht & Hc & Hf) Hout].
  - repeat split.
  - apply outcome_keeps in Hout as (Hn' & Ht' & Hc' & Hf').
    repeat split; congruence.
Qed.

Lemma dispatch_on_ends (applies : ChartType -> bool)
    (fetch : ChartConfig -> M unit) (chart before after : Chart)
    (r : Completion unit) :
  (forall config c, outcome model c (fetch config c)) ->
  compiled_from model chart before ->
  dispatch_on applies fetch before = (r, after) ->
  (r = Normal tt /\ compiled_from model chart after) \/
  (exists e, r = Throw e /\ outcome model before (Throw e, after)).
Proof.
  intros Hfetch Hfrom. rewrite dispatch_on_run.
  destruct (applies (type before)).
  - intros Hrun. pose proof (Hfetch (config before) before) as Hout.
    rewrite Hrun in Hout. destruct r as [[]|e].
    + left. split; [reflexivity|]. now apply once_more with before.
    + right. now exists e.
  - intros Hrun. injection Hrun as <- <-. left. now split.
Qed.

(** Where [refreshChart] ends: with every selected compile gone through,
    or at the first one that throws. *)
Lemma refreshChart_ends (chart chart' : Chart) (r : Completion unit) :
  refresh chart = (r, chart') ->
  (r = Normal tt /\ compiled_from model chart chart') \/
  (exists e before,
      r = Throw e /\ compiled_from model chart before /\
      outcome model before (Throw e, chart')).
Proof.
  rewrite refreshChart_steps. intros Hrun.
  pose proof (not_yet model chart) as F0.
  apply bind_inv in Hrun as [(e & Hrun & ->) | ([] & c1 & Haxis & Hrun)].
  { apply (dispatch_on_ends _ _ chart) in Hrun
      as [(Habs & _) | (e' & He & Hout)];
      [discriminate | right; injection He as <-; eauto
      | intros; apply fetchAxisChartData_outcome | exact F0]. }
  apply (dispatch_on_ends _ _ chart) in Haxis as [(_ & F1) | (e' & He & _)];
    [ | discriminate | intros; apply fetchAxisChartData_outcome | exact F0].
  apply bind_inv in Hrun as [(e & Hrun & ->) | ([] & c2 & Hmetric & Hrun)].
  { apply (dispatch_on_ends _ _ chart) in Hrun
      as [(Habs & _) | (e' & He & Hout)];
      [discriminate | right; injection He as <-; eauto
      | intros; apply fetchMetricChartData_outcome | exact F1]. }
  apply (dispatch_on_ends _ _ chart) in Hmetric as [(_ & F2) | (e' & He & _)];
    [ | discriminate | intros; apply fetchMetricChartData_outcome | exact F1].
  apply bind_inv in Hrun as [(e & Hrun & ->) | ([] & c3 & Hdonut & Hrun)].
  { apply (dispatch_on_ends _ _ chart) in Hrun
      as [(Habs & _) | (e' & He & Hout)];
      [discriminate | right; injection He as <-; eauto
      | intros; apply fetchDonutChartData_outcome | exact F2]. }
  apply (dispatch_on_ends _ _ chart) in Hdonut as [(_ & F3) | (e' & He & _)];
    [ | discriminate | intros; apply fetchDonutChartData_outcome | exact F2].
  apply (dispatch_on_ends _ _ chart) in Hrun
    as [(-> & F4) | (e' & -> & Hout)];
    [left; now split | right; eauto
    | intros; apply fetchTableChartData_outcome | exact F3].
Qed.

Lemma refreshChart_skips (chart : Chart) :
  selects_compile AXIS_CHARTS (type chart) = false ->
  refresh chart = (Normal tt, chart).
Proof.
  unfold selects_compile. rewrite !orb_false_iff.
  intros (((Ha & Hm) & Hd) & Ht).
  rewrite refreshChart_steps. unfold bind.
  rewrite !dispatch_on_run, Ha. cbv beta iota.
  rewrite !dispatch_on_run, Hm. cbv beta iota.
  rewrite !dispatch_on_run, Hd. cbv beta iota.
  rewrite !dispatch_on_run, Ht. reflexivity.
Qed.


(** With one compile per type, [refreshChart] on a selected type is that
    compile, and what it decides is settled by type and configuration. *)
Lemma refreshChart_settled (t : ChartType) (config0 : ChartConfig) :
  one_compile_per_type AXIS_CHARTS ->
  selects_compile AXIS_CHARTS t = true ->
  exists compile,
    settled model compile /\
    forall chart,
      type chart = t -> config chart = config0 ->
      refresh chart = compile chart.
Proof.
  intros Hone Hknown. unfold selects_compile in Hknown.
  destruct (JS.includes AXIS_CHARTS t) eqn:Ha.
  { exists (fetchAxis config0). split; [apply fetchAxisChartData_settled|].
    intros chart <- <-. now rewrite refreshChart_run, Ha. }
  destruct (t =? "Metric") eqn:Hm.
  { exists (fetchMetric config0). split; [apply fetchMetricChartData_settled|].
    intros chart <- <-. now rewrite refreshChart_run, Ha, Hm. }
  destruct (t =? "Donut") eqn:Hd.
  { exists (fetchDonut config0). split; [apply fetchDonutChartData_settled|].
    intros chart <- <-. now rewrite refreshChart_run, Ha, Hm, Hd. }
  destruct (t =? "Table") eqn:Ht; [|discriminate].
  exists (fetchTable config0). split; [apply fetchTableChartData_settled|].
  intros chart <- <-. now rewrite refreshChart_run, Ha, Hm, Hd, Ht.
Qed.

(** X1: A chart type that selects no compile: [refreshChart] returns without
    touching the chart, so nothing is built and nothing is handed to
    execution. *)
Theorem refresh_of_unselected_type_does_nothing (chart : Chart) :
  JS.includes AXIS_CHARTS (type chart) = false ->
  type chart <> "Metric" ->
  type chart <> "Donut" ->
  type chart <> "Table" ->
  refresh chart = (Normal tt, chart).
Proof.
  intros Ha Hm Hd Ht. apply refreshChart_skips. unfold selects_compile.
  rewrite Ha.
  apply String.eqb_neq in Hm, Hd, Ht. now rewrite Hm, Hd, Ht.
Qed.

(** X2: However [refreshChart] ends, the chart keeps its name, type,
    configuration and filters: a compile writes to the chart's query
    only. *)
Theorem refresh_writes_to_the_query_only
    (chart chart' : Chart) (r : Completion unit) :
  refresh chart = (r, chart') ->
  name chart' = name chart /\ type chart' = type chart /\
  config chart' = config chart /\ filters chart' = filters chart.
Proof.
  intros Hrun.
  apply refreshChart_ends in Hrun
    as [(_ & Hfrom) | (e & before & _ & Hfrom & Hout)].
  - now apply compiled_from_keeps.
  - apply compiled_from_keeps in Hfrom as (Hn & Ht & Hc & Hf).
    apply outcome_keeps in Hout as (Hn' & Ht' & Hc' & Hf').
    repeat split; congruence.
Qed.

Lemma assoc_In {A : Type} (key : string) (table : list (string * A)) (v : A) :
  assoc key table = Some v -> In key (map fst table).
Proof.
  induction table as [|[k w] rest IH]; simpl; [discriminate|].
  destruct (String.eqb_spec k key) as [->|_]; [now left|].
  intros H. right. now apply IH.
Qed.

(** X3: The only [Error]s [refreshChart] ends with are the twelve validation
    errors of the four compiles; anything else it throws is the engine's
    [TypeError]. *)
Theorem refresh_throws_only_validation_errors
    (chart chart' : Chart) (message : string) :
  refresh chart = (Throw (JS.Error message), chart') ->
  In message (map fst config_error_messages).
Proof.
  intros Hrun.
  apply refreshChart_ends in Hrun
    as [(Habs & _) | (e & before & He & _ & Hout)]; [discriminate|].
  injection He as <-.
  inversion Hout as [message' kind Hkind | | | ]; subst.
  unfold config_error in Hkind. now apply assoc_In in Hkind.
Qed.



(** X5: With one compile per type, what [refreshChart] decides depends on the
    chart's type and configuration only.  Two charts of one selected type
    and one configuration end the same way, whatever their names, filters
    and queries are; when they compile, both plans are the chart's own
    base plan followed by the same operations. *)
Theorem plan_depends_on_type_and_config_only
    (chart1 chart2 chart1' chart2' : Chart) (r1 r2 : Completion unit) :
  one_compile_per_type AXIS_CHARTS ->
  selects_compile AXIS_CHARTS (type chart1) = true ->
  type chart2 = type chart1 ->
  config chart2 = config chart1 ->
  refresh chart1 = (r1, chart1') ->
  refresh chart2 = (r2, chart2') ->
  r1 = r2 /\
  (r1 = Normal tt ->
   exists modelQuery emitted,
     nth_error (queries model) 0 = Some modelQuery /\
     Query.operations (query chart1')
     = base_operations modelQuery (filters chart1) ++ emitted /\
     Query.operations (query chart2')
     = base_operations modelQuery (filters chart2) ++ emitted).
Proof.
  intros Hone Hknown Htype Hconfig Hrun1 Hrun2.
  destruct (refreshChart_settled (type chart1) (config chart1) Hone Hknown)
    as (compile & Hsettled & Hsame).
  rewrite Hsame in Hrun1 by reflexivity.
  rewrite Hsame in Hrun2 by assumption.
  destruct Hsettled as [(e & Hthrow) | (emitted & _ & _ & Hbuild)].
  - rewrite Hthrow in Hrun1, Hrun2.
    injection Hrun1 as <- _. injection Hrun2 as <- _.
    split; [reflexivity | discriminate].
  - rewrite Hbuild in Hrun1, Hrun2. unfold build in *.
    destruct (nth_error (queries model) 0) as [mq|].
    + injection Hrun1 as <- <-. injection Hrun2 as <- <-.
      split; [reflexivity|]. intros _. exists mq, emitted.
      repeat split.
    + injection Hrun1 as <- _. injection Hrun2 as <- _.
      split; [reflexivity | discriminate].
Qed.

(** X6: With one compile per type, a compile that goes through hands exactly
    one plan to execution, the finished one, and leaves automatic
    execution switched off. *)
Theorem compile_hands_over_its_plan_once (chart chart' : Chart) :
  one_compile_per_type AXIS_CHARTS ->
  selects_compile AXIS_CHARTS (type chart) = true ->
  refresh chart = (Normal tt, chart') ->
  Query.autoExecute (query chart') = false /\
  Query.executed (query chart')
  = Query.executed (query chart)
    ++ [(Query.dataSource (query chart'), Query.operations (query chart'))].
Proof.
  intros Hone Hknown Hrun.
  destruct (refreshChart_settled (type chart) (config chart) Hone Hknown)
    as (compile & Hsettled & Hsame).
  rewrite Hsame in Hrun by reflexivity.
  destruct Hsettled as [(e & Hthrow) | (emitted & _ & _ & Hbuild)].
  - rewrite Hthrow in Hrun. discriminate.
  - rewrite Hbuild in Hrun. apply build_Normal in Hrun as (mq & _ & ->).
    split; reflexivity.
Qed.

(** X7: With one compile per type, compiling again an unchanged chart rebuilds
    the same plan from the base: the chart ends as it was, with that plan
    handed to execution once more. *)
Theorem recompile_rebuilds_the_same_plan (chart chart' : Chart) :
  one_compile_per_type AXIS_CHARTS ->
  selects_compile AXIS_CHARTS (type chart) = true ->
  refresh chart = (Normal tt, chart') ->
  refresh chart' = (Normal tt, with_query Query.execute chart').
Proof.
  intros Hone Hknown Hrun.
  destruct (refreshChart_settled (type chart) (config chart) Hone Hknown)
    as (compile & Hsettled & Hsame).
  rewrite Hsame in Hrun by reflexivity.
  destruct Hsettled as [(e & Hthrow) | (emitted & _ & _ & Hbuild)].
  - rewrite Hthrow in Hrun. discriminate.
  - rewrite Hbuild in Hrun. apply build_Normal in Hrun as (mq & Hq & ->).
    rewrite Hsame by reflexivity. rewrite Hbuild.
    unfold build. rewrite Hq. reflexivity.
Qed.

(** X8: With one compile per type, replacing the filters of a chart that
    compiles and compiling again changes the filter step of the plan and
    nothing else: the new plan is the base plan made with the new filters,
    followed by the same operations of the chart type. *)
Theorem setFilters_changes_the_filter_step_only
    (chart chart' : Chart) (fs : list FilterArgs) :
  one_compile_per_type AXIS_CHARTS ->
  selects_compile AXIS_CHARTS (type chart) = true ->
  refresh chart = (Normal tt, chart') ->
  exists modelQuery emitted chart'',
    nth_error (queries model) 0 = Some modelQuery /\
    Query.operations (query chart')
    = base_operations modelQuery (filters chart) ++ emitted /\
    (setFilters fs ;; refresh) chart = (Normal tt, chart'') /\
    filters chart'' = fs /\
    Query.operations (query chart'')
    = base_operations modelQuery fs ++ emitted.
Proof.
  intros Hone Hknown Hrun.
  destruct (refreshChart_settled (type chart) (config chart) Hone Hknown)
    as (compile & Hsettled & Hsame).
  rewrite Hsame in Hrun by reflexivity.
  destruct Hsettled as [(e & Hthrow) | (emitted & _ & _ & Hbuild)].
  - rewrite Hthrow in Hrun. discriminate.
  - rewrite Hbuild in Hrun. apply build_Normal in Hrun as (mq & Hq & ->).
    exists mq, emitted. eexists. split; [exact Hq|]. split; [reflexivity|].
    unfold bind, setFilters.
    rewrite Hsame by reflexivity. rewrite Hbuild. unfold build. rewrite Hq.
    repeat split.
Qed.

(** *** The four compiles *)

(** X9: An Axis configuration whose [split_by] is its [x_axis] is rejected
    with the ConflictingFields error "X-axis and split-by cannot be the
    same", before any column is resolved; the chart is left as it was. *)
Theorem axis_split_by_equal_to_x_axis_conflict
    (config : ChartConfig) (chart : Chart) :
  JS.truthy (x_axis config) = true ->
  split_by config = x_axis config ->
  fetchAxis config chart
  = (Throw (JS.Error "X-axis and split-by cannot be the same"), chart)
  /\ config_error (JS.Error "X-axis and split-by cannot be the same")
     = Some ConflictingFields.
Proof.
  intros Hx Hsame. rewrite fetchAxisChartData_run, Hx, Hsame.
  replace (JS.strict_eq (x_axis config) (x_axis config)) with true
    by (symmetry; now apply strict_eq_true).
  split; reflexivity.
Qed.

(** X10: Which Axis configurations compile: exactly those with a non-empty
    [x_axis] that differs from [split_by] and names a dimension, on a data
    model that has a query.  Neither [split_by] nor [y_axis] has to
    resolve. *)
Theorem axis_compiles_iff (config : ChartConfig) (chart : Chart) :
  (exists chart', fetchAxis config chart = (Normal tt, chart')) <->
  JS.truthy (x_axis config) = true /\
  x_axis config <> split_by config /\
  getDimension model (x_axis config) <> None /\
  queries model <> [].
Proof.
  rewrite fetchAxisChartData_run, has_query, <- strict_eq_false.
  destruct (JS.truthy (x_axis config)); simpl;
    [|split; [intros (c & H); discriminate | intros (H & _); discriminate]].
  destruct (JS.strict_eq (x_axis config) (split_by config));
    [split; [intros (c & H); discriminate
            | intros (_ & H & _); discriminate]|].
  destruct (getDimension model (x_axis config)) as [row|];
    [|split; [intros (c & H); discriminate
             | intros (_ & _ & H & _); contradiction]].
  split.
  - intros (c & H). apply build_Normal in H as (mq & Hq & _).
    repeat split; try discriminate. now exists mq.
  - intros (_ & _ & _ & mq & Hq). eexists. apply build_Normal. eauto.
Qed.

(** X11: Which Metric configurations compile: exactly those that do not give
    both a target value and a target column, nor both a target column and
    a date column, whose [metric_column] differs from [target_column] and
    names a measure, on a data model that has a query.  Neither the target
    column nor the date column has to resolve. *)
Theorem metric_compiles_iff (config : ChartConfig) (chart : Chart) :
  (exists chart', fetchMetric config chart = (Normal tt, chart')) <->
  JS.truthy_value (target_value config) && JS.truthy (target_column config)
  = false /\
  metric_column config <> target_column config /\
  JS.truthy (target_column config) && JS.truthy (date_column config) = false /\
  getMeasure model (metric_column config) <> None /\
  queries model <> [].
Proof.
  rewrite fetchMetricChartData_run, has_query, <- strict_eq_false.
  destruct (JS.truthy_value _ && JS.truthy _);
    [split; [intros (c & H); discriminate | intros (H & _); discriminate]|].
  destruct (JS.strict_eq _ _);
    [split; [intros (c & H); discriminate
            | intros (_ & H & _); discriminate]|].
  destruct (JS.truthy _ && JS.truthy _);
    [split; [intros (c & H); discriminate
            | intros (_ & _ & H & _); discriminate]|].
  destruct (getMeasure model (metric_column config)) as [metric|];
    [|split; [intros (c & H); discriminate
             | intros (_ & _ & _ & H & _); contradiction]].
  split.
  - intros (c & H). apply build_Normal in H as (mq & Hq & _).
    repeat split; try discriminate. now exists mq.
  - intros (_ & _ & _ & _ & mq & Hq). eexists. apply build_Normal. eauto.
Qed.

(** X12: Which Donut configurations compile: exactly those whose
    [label_column] and [value_column] are non-empty and name a dimension
    and a measure, on a data model that has a query. *)
Theorem donut_compiles_iff (config : ChartConfig) (chart : Chart) :
  (exists chart', fetchDonut config chart = (Normal tt, chart')) <->
  JS.truthy (label_column config) = true /\
  JS.truthy (value_column config) = true /\
  getDimension model (label_column config) <> None /\
  getMeasure model (value_column config) <> None /\
  queries model <> [].
Proof.
  rewrite fetchDonutChartData_run, has_query.
  destruct (JS.truthy (label_column config)); simpl;
    [|split; [intros (c & H); discriminate | intros (H & _); discriminate]].
  destruct (JS.truthy (value_column config)); simpl;
    [|split; [intros (c & H); discriminate
             | intros (_ & H & _); discriminate]].
  destruct (getDimension model (label_column config)) as [label|];
    [|split; [intros (c & H); discriminate
             | intros (_ & _ & H & _); contradiction]].
  destruct (getMeasure model (value_column config)) as [value|];
    [|split; [intros (c & H); discriminate
             | intros (_ & _ & _ & H & _); contradiction]].
  split.
  - intros (c & H). apply build_Normal in H as (mq & Hq & _).
    repeat split; try discriminate. now exists mq.
  - intros (_ & _ & _ & _ & mq & Hq). eexists. apply build_Normal. eauto.
Qed.

(** X13: Which Table configurations compile: exactly those with a non-empty
    [rows] list and with [columns] and [values] lists, on a data model
    that has a query.  No name of any of the three lists has to
    resolve. *)
Theorem table_compiles_iff (config : ChartConfig) (chart : Chart) :
  (exists chart', fetchTable config chart = (Normal tt, chart')) <->
  (exists rs cs vs,
      rows config = Some rs /\ rs <> [] /\
      columns config = Some cs /\ values config = Some vs) /\
  queries model <> [].
Proof.
  rewrite fetchTableChartData_run, has_query.
  destruct (rows config) as [[|r rs]|];
    [split; [intros (c & H); discriminate
            | intros ((rs & cs & vs & H & Hne & _) & _);
              injection H as <-; contradiction]
    | | split; [intros (c & H); discriminate
               | intros ((rs & cs & vs & H & _) & _); discriminate]].
  destruct (columns config) as [cs|];
    [|split; [intros (c & H); discriminate
             | intros ((rs' & cs & vs & _ & _ & H & _) & _); discriminate]].
  destruct (values config) as [vs|];
    [|split; [intros (c & H); discriminate
             | intros ((rs' & cs' & vs & _ & _ & _ & H) & _); discriminate]].
  split.
  - intros (c & H). apply build_Normal in H as (mq & Hq & _).
    split; [|now exists mq].
    exists (r :: rs), cs, vs. repeat split. discriminate.
  - intros (_ & mq & Hq). eexists. apply build_Normal. eauto.
Qed.

(** X14: A Metric configuration with a literal target above zero compiles to
    the summarize of the metric alone followed by the derive of the field
    "target", of type Decimal, from the expression [literal(<target>)].
    The date column plays no part in this plan, whether it resolves or
    not. *)
Theorem metric_positive_literal_target_plan
    (config : ChartConfig) (chart chart' : Chart) :
  JS.truthy_value (target_value config) = true ->
  PrimFloat.ltb 0%float (Number StringToNumber (target_value config)) = true ->
  fetchMetric config chart = (Normal tt, chart') ->
  exists modelQuery metric,
    nth_error (queries model) 0 = Some modelQuery /\
    getMeasure model (metric_column config) = Some metric /\
    chart' =
    compiled modelQuery
      [summarize [metric] [];
       mutate_op
         (mutate "target" "Decimal"
            (expression
               ("literal("
                ++ NumberToString (Number StringToNumber (target_value config))
                ++ ")")))]
      chart.
Proof.
  intros Htruthy Hpositive.
  rewrite fetchMetricChartData_run.
  destruct (_ && _); [discriminate|].
  destruct (JS.strict_eq _ _); [discriminate|].
  destruct (_ && _); [discriminate|].
  destruct (getMeasure model (metric_column config)) as [metric|];
    [|discriminate].
  unfold metric_target, metric_operations. rewrite Htruthy. simpl.
  rewrite Hpositive. intros Hrun.
  apply build_Normal in Hrun as (mq & Hq & ->). now exists mq, metric.
Qed.

(** X15: A Metric configuration that gives a target column and a date column,
    and passes the two checks before, is rejected with the
    ConflictingFields error "Target and date cannot be used together",
    whether or not its columns resolve; the chart is left as it was. *)
Theorem metric_target_column_and_date_conflict
    (config : ChartConfig) (chart : Chart) :
  JS.truthy_value (target_value config) = false ->
  metric_column config <> target_column config ->
  JS.truthy (target_column config) = true ->
  JS.truthy (date_column config) = true ->
  fetchMetric config chart
  = (Throw (JS.Error "Target and date cannot be used together"), chart)
  /\ config_error (JS.Error "Target and date cannot be used together")
     = Some ConflictingFields.
Proof.
  intros Hvalue Hdiffer Htarget Hdate.
  apply strict_eq_false in Hdiffer.
  rewrite fetchMetricChartData_run, Hvalue, Hdiffer, Htarget, Hdate.
  split; reflexivity.
Qed.

(** X16: The Donut validation, in its order: the label is required, then the
    value is required, and only then are the two columns resolved, the
    label first.  Each failure leaves the chart as it was. *)
Theorem donut_validation_order (config : ChartConfig) (chart : Chart) :
  (JS.truthy (label_column config) = false ->
   fetchDonut config chart = (Throw (JS.Error "Label is required"), chart)) /\
  (JS.truthy (label_column config) = true ->
   JS.truthy (value_column config) = false ->
   fetchDonut config chart = (Throw (JS.Error "Value is required"), chart)) /\
  (JS.truthy (label_column config) = true ->
   JS.truthy (value_column config) = true ->
   getDimension model (label_column config) = None ->
   fetchDonut config chart
   = (Throw (JS.Error "Label column not found"), chart)) /\
  (JS.truthy (label_column config) = true ->
   JS.truthy (value_column config) = true ->
   getDimension model (label_column config) <> None ->
   getMeasure model (value_column config) = None ->
   fetchDonut config chart
   = (Throw (JS.Error "Value column not found"), chart)).
Proof.
  rewrite fetchDonutChartData_run.
  repeat apply conj.
  - now intros ->.
  - now intros -> ->.
  - now intros -> -> ->.
  - intros -> -> Hlabel ->. simpl.
    destruct (getDimension model (label_column config));
      [reflexivity | contradiction].
Qed.

(** X17: A Table configuration with an empty [rows] list is rejected with the
    MissingField error "Rows are required", whatever [columns] and
    [values] hold or lack; the chart is left as it was. *)
Theorem table_empty_rows_are_rejected (config : ChartConfig) (chart : Chart) :
  rows config = Some [] ->
  fetchTable config chart = (Throw (JS.Error "Rows are required"), chart)
  /\ config_error (JS.Error "Rows are required") = Some MissingField.
Proof.
  intros Hrows. rewrite fetchTableChartData_run, Hrows. split; reflexivity.
Qed.

(** X18: A configuration object that lacks [rows], or has entries in [rows] but
    lacks [columns] or [values], does not get a validation error from the
    Table compile: reading the missing list throws the engine's
    [TypeError].  The chart is left as it was. *)
Theorem table_missing_list_is_a_TypeError
    (config : ChartConfig) (chart : Chart) :
  rows config = None \/
  ((exists r rs, rows config = Some (r :: rs)) /\
   (columns config = None \/ values config = None)) ->
  exists message,
    fetchTable config chart = (Throw (JS.TypeError message), chart) /\
    config_error (JS.TypeError message) = None.
Proof.
  rewrite fetchTableChartData_run.
  intros [-> | ((r & rs & ->) & [-> | Hvalues])].
  - eexists. split; reflexivity.
  - eexists. split; reflexivity.
  - rewrite Hvalues. destruct (columns config); eexists; split; reflexivity.
Qed.

(** X19: When some name of [y_axis] is a measure, the measures of an Axis plan
    are the resolved names of [y_axis], in their order, and the row count
    is not added. *)
Theorem axis_measures_are_the_resolved_y_axis
    (config : ChartConfig) (chart chart' : Chart) (ys : list string) :
  y_axis config = Some ys ->
  resolved_measures model ys <> [] ->
  fetchAxis config chart = (Normal tt, chart') ->
  exists modelQuery row,
    nth_error (queries model) 0 = Some modelQuery /\
    getDimension model (x_axis config) = Some row /\
    match getDimension model (split_by config) with
    | Some col =>
        chart' =
        compiled modelQuery
          [pivot_wider [row] [col] (resolved_measures model ys)] chart
    | None =>
        chart' =
        compiled modelQuery
          [summarize (resolved_measures model ys) [row]] chart
    end.
Proof.
  intros Hys Hsome.
  assert (Hmeasures :
            axis_measures model count config = resolved_measures model ys).
  { unfold axis_measures. rewrite Hys. simpl.
    destruct (resolved_measures model ys); [contradiction | reflexivity]. }
  rewrite fetchAxisChartData_run, Hmeasures.
  destruct (negb _); [discriminate|].
  destruct (JS.strict_eq _ _); [discriminate|].
  destruct (getDimension model (x_axis config)) as [row|]; [|discriminate].
  intros Hrun. apply build_Normal in Hrun as (mq & Hq & ->).
  exists mq, row. do 2 (split; [assumption || reflexivity|]).
  destruct (getDimension model (split_by config)); reflexivity.
Qed.

Lemma filter_Boolean_map_In {A B : Type} (f : A -> option B) (xs : list A)
    (y : B) :
  In y (JS.filter_Boolean (map f xs)) <-> exists x, In x xs /\ f x = Some y.
Proof.
  induction xs as [|x xs IH]; simpl.
  - split; [contradiction | intros (x & [] & _)].
  - destruct (f x) as [z|] eqn:Hfx; simpl; rewrite IH; split.
    + intros [<- | (x' & Hin & Hf)]; [exists x; auto | exists x'; auto].
    + intros (x' & [<- | Hin] & Hf);
        [left; congruence | right; exists x'; auto].
    + intros (x' & Hin & Hf). exists x'; auto.
    + intros (x' & [<- | Hin] & Hf); [congruence | exists x'; auto].
Qed.

Lemma filter_Boolean_map_length {A B : Type} (f : A -> option B)
    (xs : list A) :
  length (JS.filter_Boolean (map f xs)) <= length xs.
Proof.
  induction xs as [|x xs IH]; simpl; [lia|].
  destruct (f x); simpl; lia.
Qed.

(** X20: The rows, columns and values of a Table plan are the best-effort
    resolution of the three lists: a dimension (measure) is in the plan
    exactly when some name of the list resolves to it, so no list of the
    plan is longer than its list of names, and unresolved names leave no
    trace. *)
Theorem table_plan_holds_the_resolved_names
    (config : ChartConfig) (chart chart' : Chart) :
  fetchTable config chart = (Normal tt, chart') ->
  exists modelQuery rs cs vs R C V,
    rows config = Some rs /\ columns config = Some cs /\
    values config = Some vs /\
    (chart' = compiled modelQuery [summarize V R] chart \/
     chart' = compiled modelQuery [pivot_wider R C V] chart) /\
    (forall d, In d R <->
               exists n, In n rs /\ dimension_named model n = Some d) /\
    (forall d, In d C <->
               exists n, In n cs /\ dimension_named model n = Some d) /\
    (forall m, In m V <->
               exists n, In n vs /\ measure_named model n = Some m) /\
    length R <= length rs /\ length C <= length cs /\
    length V <= length vs.
Proof.
  rewrite fetchTableChartData_run.
  destruct (rows config) as [[|r rs]|]; try discriminate.
  destruct (columns config) as [cs|]; [|discriminate].
  destruct (values config) as [vs|]; [|discriminate].
  intros Hrun. apply build_Normal in Hrun as (mq & _ & ->).
  exists mq, (r :: rs), cs, vs.
  exists (resolved_dimensions model (r :: rs)), (resolved_dimensions model cs),
    (resolved_measures model vs).
  do 3 (split; [reflexivity|]).
  split.
  { unfold table_operations. destruct (resolved_dimensions model cs); auto. }
  unfold resolved_dimensions, resolved_measures.
  repeat apply conj;
    first [ intros; apply filter_Boolean_map_In
          | apply filter_Boolean_map_length ].
Qed.

(** *** Creating and restoring a chart *)

(** X21: Round trip: a chart created under the name of a serialized chart, with
    that serialized chart in the store, serializes to the same name, type
    and configuration.  Filters are not part of what is stored: the
    restored chart has none, and its query is the one made for the name. *)
Theorem serialize_restore_round_trip
    (useQuery : string -> Query.t) (chart : Chart) :
  let restored :=
    useAnalysisChart useQuery (name chart) (Some (serialize chart)) in
  serialize restored = serialize chart /\
  filters restored = [] /\
  query restored = useQuery (name chart).
Proof.
  unfold useAnalysisChart, serialize; simpl.
  rewrite String.eqb_refl. repeat split.
Qed.

(** X22: A stored chart is restored only under its own name: with a chart of
    another name in the store, or with nothing stored, the new chart is
    the default one, of type "Bar", with the empty configuration and no
    filters. *)
Theorem stored_chart_of_another_name_is_ignored
    (useQuery : string -> Query.t) (chart_name : string)
    (stored : Serialized.t) :
  Serialized.name stored <> chart_name ->
  useAnalysisChart useQuery chart_name (Some stored)
  = useAnalysisChart useQuery chart_name None /\
  useAnalysisChart useQuery chart_name None
  = {| name := chart_name; type := "Bar"; config := empty_config;
       query := useQuery chart_name; filters := [] |}.
Proof.
  intros Hother. apply String.eqb_neq in Hother.
  unfold useAnalysisChart. rewrite Hother. split; reflexivity.
Qed.

(** X23: The first compile of a chart that was not restored: as long as "Bar"
    is an axis chart type, it is rejected with the MissingField error
    "X-axis is required", and the new chart's query is left as
    [useQuery] made it. *)
Theorem new_chart_first_compile_is_rejected
    (useQuery : string -> Query.t) (chart_name : string) :
  JS.includes AXIS_CHARTS "Bar" = true ->
  refresh (useAnalysisChart useQuery chart_name None)
  = (Throw (JS.Error "X-axis is required"),
     useAnalysisChart useQuery chart_name None)
  /\ config_error (JS.Error "X-axis is required") = Some MissingField.
Proof.
  intros Hbar. split; [|reflexivity].
  rewrite refreshChart_steps. unfold bind at 1.
  rewrite dispatch_on_run. simpl type. rewrite Hbar.
  now rewrite fetchAxisChartData_run.
Qed.

End Coverage.

(** ** The further properties on the sales model *)

Lemma refresh_of_unselected_type_does_nothing_witness :
  let chart := Sales.chart "Funnel" Sales.donut_config [Sales.this_year] in
  refreshChart Sales.model Sales.StringToNumber Sales.NumberToString
    Sales.count Sales.AXIS_CHARTS chart
  = (Normal tt, chart).
Proof.
  apply refresh_of_unselected_type_does_nothing;
    [reflexivity | discriminate | discriminate | discriminate].
Defined.

Lemma refresh_writes_to_the_query_only_witness :
  let chart := Sales.chart "Donut" Sales.donut_config [Sales.this_year] in
  let run :=
    refreshChart Sales.model Sales.StringToNumber Sales.NumberToString
      Sales.count Sales.AXIS_CHARTS chart in
  fst run = Normal tt /\
  query (snd run) <> query chart /\
  name (snd run) = name chart /\ type (snd run) = type chart /\
  config (snd run) = config chart /\ filters (snd run) = filters chart.
Proof.
  split; [vm_compute; reflexivity|].
  split; [vm_compute; discriminate|].
  apply (refresh_writes_to_the_query_only
           Sales.model Sales.StringToNumber Sales.NumberToString
           Sales.count Sales.AXIS_CHARTS _ _ (Normal tt)).
  vm_compute. reflexivity.
Defined.

Lemma refresh_throws_only_validation_errors_witness :
  In "Value column not found" (map fst config_error_messages).
Proof.
  apply (refresh_throws_only_validation_errors
           Sales.model Sales.StringToNumber Sales.NumberToString
           Sales.count Sales.AXIS_CHARTS
           (Sales.chart "Donut"
              {| x_axis := None; split_by := None; y_axis := None;
                 metric_column := None; target_value := JS.Undefined;
                 target_column := None; date_column := None;
                 label_column := Some "region";
                 value_column := Some "margin";
                 rows := None; columns := None; values := None |} [])
           (Sales.chart "Donut"
              {| x_axis := None; split_by := None; y_axis := None;
                 metric_column := None; target_value := JS.Undefined;
                 target_column := None; date_column := None;
                 label_column := Some "region";
                 value_column := Some "margin";
                 rows := None; columns := None; values := None |} [])).
  vm_compute. reflexivity.
Defined.


Lemma plan_depends_on_type_and_config_only_witness :
  let config := Sales.axis_config (Some "quarter") (Some ["revenue"]) in
  let chart1 := Sales.chart "Bar" config [] in
  let chart2 :=
    {| name := "copy"; type := "Bar"; config := config;
       query := Query.execute (Query.addFilter [] Sales.fresh_query);
       filters := [Sales.this_year] |} in
  let refresh :=
    refreshChart Sales.model Sales.StringToNumber Sales.NumberToString
      Sales.count Sales.AXIS_CHARTS in
  fst (refresh chart1) = fst (refresh chart2) /\
  (fst (refresh chart1) = Normal tt ->
   exists modelQuery emitted,
     nth_error (queries Sales.model) 0 = Some modelQuery /\
     Query.operations (query (snd (refresh chart1)))
     = base_operations modelQuery (filters chart1) ++ emitted /\
     Query.operations (query (snd (refresh chart2)))
     = base_operations modelQuery (filters chart2) ++ emitted).
Proof.
  apply (plan_depends_on_type_and_config_only
           Sales.model Sales.StringToNumber Sales.NumberToString
           Sales.count Sales.AXIS_CHARTS).
  - repeat split; reflexivity.
  - reflexivity.
  - reflexivity.
  - reflexivity.
  - vm_compute. reflexivity.
  - vm_compute. reflexivity.
Defined.

Lemma compile_hands_over_its_plan_once_witness :
  let chart := Sales.chart "Donut" Sales.donut_config [Sales.this_year] in
  let chart' :=
    snd (refreshChart Sales.model Sales.StringToNumber Sales.NumberToString
           Sales.count Sales.AXIS_CHARTS chart) in
  Query.autoExecute (query chart') = false /\
  Query.executed (query chart')
  = Query.executed (query chart)
    ++ [(Query.dataSource (query chart'), Query.operations (query chart'))].
Proof.
  apply (compile_hands_over_its_plan_once
           Sales.model Sales.StringToNumber Sales.NumberToString
           Sales.count Sales.AXIS_CHARTS).
  - repeat split; reflexivity.
  - reflexivity.
  - vm_compute. reflexivity.
Defined.

Lemma recompile_rebuilds_the_same_plan_witness :
  let chart := Sales.chart "Donut" Sales.donut_config [Sales.this_year] in
  let refresh :=
    refreshChart Sales.model Sales.StringToNumber Sales.NumberToString
      Sales.count Sales.AXIS_CHARTS in
  refresh (snd (refresh chart))
  = (Normal tt, with_query Query.execute (snd (refresh chart))).
Proof.
  apply (recompile_rebuilds_the_same_plan
           Sales.model Sales.StringToNumber Sales.NumberToString
           Sales.count Sales.AXIS_CHARTS
           (Sales.chart "Donut" Sales.donut_config [Sales.this_year])).
  - repeat split; reflexivity.
  - reflexivity.
  - vm_compute. reflexivity.
Defined.

Lemma setFilters_changes_the_filter_step_only_witness :
  let chart := Sales.chart "Donut" Sales.donut_config [] in
  let refresh :=
    refreshChart Sales.model Sales.StringToNumber Sales.NumberToString
      Sales.count Sales.AXIS_CHARTS in
  exists modelQuery emitted chart'',
    nth_error (queries Sales.model) 0 = Some modelQuery /\
    Query.operations (query (snd (refresh chart)))
    = base_operations modelQuery (filters chart) ++ emitted /\
    (setFilters [Sales.this_year] ;; refresh) chart = (Normal tt, chart'') /\
    filters chart'' = [Sales.this_year] /\
    Query.operations (query chart'')
    = base_operations modelQuery [Sales.this_year] ++ emitted.
Proof.
  apply (setFilters_changes_the_filter_step_only
           Sales.model Sales.StringToNumber Sales.NumberToString
           Sales.count Sales.AXIS_CHARTS).
  - repeat split; reflexivity.
  - reflexivity.
  - vm_compute. reflexivity.
Defined.

Lemma axis_split_by_equal_to_x_axis_conflict_witness :
  let config := Sales.axis_config (Some "region") (Some ["revenue"]) in
  let chart := Sales.chart "Bar" config [] in
  fetchAxisChartData Sales.model Sales.count config chart
  = (Throw (JS.Error "X-axis and split-by cannot be the same"), chart)
  /\ config_error (JS.Error "X-axis and split-by cannot be the same")
     = Some ConflictingFields.
Proof.
  apply axis_split_by_equal_to_x_axis_conflict; reflexivity.
Defined.

Lemma metric_positive_literal_target_plan_witness :
  let config :=
    Sales.metric_config (Some "signups") (JS.Str "100") None (Some "day") in
  let chart := Sales.chart "Metric" config [] in
  let chart' :=
    compiled Sales.upstream
      [summarize [Sales.sum_of "signups"] [];
       mutate_op (mutate "target" "Decimal" (expression "literal(100)"))]
      chart in
  exists modelQuery metric,
    nth_error (queries Sales.model) 0 = Some modelQuery /\
    getMeasure Sales.model (metric_column config) = Some metric /\
    chart' =
    compiled modelQuery
      [summarize [metric] [];
       mutate_op
         (mutate "target" "Decimal"
            (expression
               ("literal("
                ++ Sales.NumberToString
                     (Number Sales.StringToNumber (target_value config))
                ++ ")")))]
      chart.
Proof.
  apply (metric_positive_literal_target_plan
           Sales.model Sales.StringToNumber Sales.NumberToString).
  - reflexivity.
  - reflexivity.
  - vm_compute. reflexivity.
Defined.

Lemma metric_target_column_and_date_conflict_witness :
  let config :=
    Sales.metric_config (Some "margin") JS.Undefined (Some "goal")
      (Some "day") in
  let chart := Sales.chart "Metric" config [] in
  fetchMetricChartData Sales.model Sales.StringToNumber Sales.NumberToString
    config chart
  = (Throw (JS.Error "Target and date cannot be used together"), chart)
  /\ config_error (JS.Error "Target and date cannot be used together")
     = Some ConflictingFields.
Proof.
  apply metric_target_column_and_date_conflict;
    [reflexivity | discriminate | reflexivity | reflexivity].
Defined.

Lemma donut_validation_order_witness :
  let config :=
    {| x_axis := None; split_by := None; y_axis := None;
       metric_column := None; target_value := JS.Undefined;
       target_column := None; date_column := None;
       label_column := Some "margin"; value_column := Some "";
       rows := None; columns := None; values := None |} in
  let chart := Sales.chart "Donut" config [] in
  getDimension Sales.model (label_column config) = None /\
  fetchDonutChartData Sales.model config chart
  = (Throw (JS.Error "Value is required"), chart).
Proof.
  split; [reflexivity|].
  apply (proj1 (proj2 (donut_validation_order Sales.model _ _)));
    reflexivity.
Defined.

Lemma table_empty_rows_are_rejected_witness :
  let config := Sales.table_config [] ["quarter"] ["revenue"] in
  let chart := Sales.chart "Table" config [] in
  fetchTableChartData Sales.model config chart
  = (Throw (JS.Error "Rows are required"), chart)
  /\ config_error (JS.Error "Rows are required") = Some MissingField.
Proof.
  apply table_empty_rows_are_rejected; reflexivity.
Defined.

Lemma table_missing_list_is_a_TypeError_witness :
  let chart := Sales.chart "Table" empty_config [] in
  exists message,
    fetchTableChartData Sales.model empty_config chart
    = (Throw (JS.TypeError message), chart) /\
    config_error (JS.TypeError message) = None.
Proof.
  apply table_missing_list_is_a_TypeError. left. reflexivity.
Defined.

Lemma axis_measures_are_the_resolved_y_axis_witness :
  let ys := ["margin"; "revenue"; "profit"; "signups"] in
  let config := Sales.axis_config None (Some ys) in
  let chart := Sales.chart "Line" config [] in
  let chart' :=
    compiled Sales.upstream
      [summarize [Sales.sum_of "revenue"; Sales.sum_of "signups"]
         [Sales.dimension "region"]]
      chart in
  exists modelQuery row,
    nth_error (queries Sales.model) 0 = Some modelQuery /\
    getDimension Sales.model (x_axis config) = Some row /\
    match getDimension Sales.model (split_by config) with
    | Some col =>
        chart' =
        compiled modelQuery
          [pivot_wider [row] [col] (resolved_measures Sales.model ys)] chart
    | None =>
        chart' =
        compiled modelQuery
          [summarize (resolved_measures Sales.model ys) [row]] chart
    end.
Proof.
  apply (axis_measures_are_the_resolved_y_axis Sales.model Sales.count).
  - reflexivity.
  - discriminate.
  - vm_compute. reflexivity.
Defined.

Lemma table_plan_holds_the_resolved_names_witness :
  let config :=
    Sales.table_config ["region"; "margin"] ["quarter"] ["profit"] in
  let chart := Sales.chart "Table" config [] in
  let chart' :=
    compiled Sales.upstream
      [pivot_wider [Sales.dimension "region"] [Sales.dimension "quarter"] []]
      chart in
  exists modelQuery rs cs vs R C V,
    rows config = Some rs /\ columns config = Some cs /\
    values config = Some vs /\
    (chart' = compiled modelQuery [summarize V R] chart \/
     chart' = compiled modelQuery [pivot_wider R C V] chart) /\
    (forall d, In d R <->
               exists n, In n rs /\ dimension_named Sales.model n = Some d) /\
    (forall d, In d C <->
               exists n, In n cs /\ dimension_named Sales.model n = Some d) /\
    (forall m, In m V <->
               exists n, In n vs /\ measure_named Sales.model n = Some m) /\
    length R <= length rs /\ length C <= length cs /\
    length V <= length vs.
Proof.
  apply (table_plan_holds_the_resolved_names Sales.model).
  vm_compute. reflexivity.
Defined.

Lemma stored_chart_of_another_name_is_ignored_witness :
  let stored :=
    serialize (Sales.chart "Donut" Sales.donut_config [Sales.this_year]) in
  let useQuery := fun _ : string => Sales.fresh_query in
  useAnalysisChart useQuery "costs" (Some stored)
  = useAnalysisChart useQuery "costs" None /\
  useAnalysisChart useQuery "costs" None
  = {| name := "costs"; type := "Bar"; config := empty_config;
       query := useQuery "costs"; filters := [] |}.
Proof.
  apply stored_chart_of_another_name_is_ignored. discriminate.
Defined.

Lemma new_chart_first_compile_is_rejected_witness :
  let useQuery := fun _ : string => Sales.fresh_query in
  refreshChart Sales.model Sales.StringToNumber Sales.NumberToString
    Sales.count Sales.AXIS_CHARTS (useAnalysisChart useQuery "costs" None)
  = (Throw (JS.Error "X-axis is required"),
     useAnalysisChart useQuery "costs" None)
  /\ config_error (JS.Error "X-axis is required") = Some MissingField.
Proof.
  apply new_chart_first_compile_is_rejected. reflexivity.
Defined.
